(** * School Equipment Lending Portal: the browser client [frontend/app.js]

    A shallow embedding of the single-page client and the properties its
    specification states about it.  The script is event driven: every
    handler runs to its first [await], parks a continuation on the request
    it issued, and is resumed when the response is delivered.  The model
    follows that shape: a state record (module variables, durable storage,
    the parts of the document the script writes, requests in flight), one
    function per source function, and a [step] function over events.

    What the script takes from its platform is modelled after ECMA-262 and
    the Fetch and DOM standards; what those leave to the implementation
    (the local time zone, number formatting, engine error texts) is a field
    of the [Browser] record. *)

From Stdlib Require Import ZArith Lia Bool List Ascii String Floats Uint63.
From stdpp Require Import gmap strings.

Local Open Scope Z_scope.

(** ** JavaScript values

    What [JSON.parse] produces, plus [undefined].  Numbers are IEEE 754
    doubles; objects are finite maps from property names to values. *)

#[warnings="-register-all"]
Inductive value :=
| VUndefined
| VNull
| VBool (b : bool)
| VNum (x : float)
| VStr (s : string)
| VArr (l : list value)
| VObj (fields : gmap string value).

(** The two ways in which the engine itself throws in this script. *)
Inductive type_error :=
| ReadOfNull (prop : string)        (* null.prop *)
| ReadOfUndefined (prop : string)   (* undefined.prop *)
| NotAFunction (prop : string).     (* x.prop(...) where x.prop is not callable *)

(** Thrown values: every one is an [Error] object, of which the script only
    ever reads [message]. *)
Inductive error :=
| Error (message : string)          (* new Error(message) *)
| TypeError (te : type_error)       (* raised by the engine *)
| RangeError                        (* toISOString() on an invalid date *)
| SyntaxError (message : string)    (* response.json() on a body that is not JSON *)
| NetworkFailure (message : string). (* fetch() rejecting *)

(** What the standards leave to the implementation. *)
Record Browser := {
  (* ECMA-262 LocalTZA(t, isUTC): offset of local time in milliseconds *)
  LocalTZA : Z -> bool -> Z;
  (* ECMA-262 Number::toString, radix 10 *)
  Number_toString : float -> string;
  (* ECMA-262 StringToNumber *)
  StringToNumber : string -> float;
  (* parseInt(s, 10) *)
  parseInt10 : string -> float;
  (* message texts of the errors the engine raises *)
  TypeError_message : type_error -> string;
  RangeError_message : string;
  (* reading innerHTML back after assigning it: parse as a fragment of the
     element, then serialise *)
  html_roundtrip : string -> string;
}.

Definition error_message (B : Browser) (e : error) : string :=
  match e with
  | Error m => m
  | TypeError te => TypeError_message B te
  | RangeError => RangeError_message B
  | SyntaxError m => m
  | NetworkFailure m => m
  end.

(** Completions: a normal result or a thrown error. *)
Inductive completion (A : Type) :=
| Normal (a : A)
| Throw (e : error).
Arguments Normal {A} a.
Arguments Throw {A} e.

#[global] Instance completion_ret : MRet completion := fun A a => Normal a.
#[global] Instance completion_bind : MBind completion := fun A C f m =>
  match m with
  | Normal a => f a
  | Throw e => Throw e
  end.

Module JS.

Definition dq : string := String (ascii_of_nat 34) EmptyString.
Definition nl : string := String (ascii_of_nat 10) EmptyString.

(** Array.prototype.join on strings already converted. *)
Definition join (sep : string) (l : list string) : string :=
  match l with
  | [] => EmptyString
  | x :: r => fold_left (fun acc y => acc +:+ sep +:+ y) r x
  end.

Definition of_nat (n : nat) : float :=
  PrimFloat.of_uint63 (Uint63.of_Z (Z.of_nat n)).

Section WithBrowser.
Variable B : Browser.

(** ToString, as template literals and [new Error(x)] apply it. *)
Fixpoint ToString (v : value) : string :=
  match v with
  | VUndefined => "undefined"
  | VNull => "null"
  | VBool true => "true"
  | VBool false => "false"
  | VNum x => Number_toString B x
  | VStr s => s
  | VArr l =>
      join "," (List.map (fun e => match e with
                                   | VUndefined | VNull => EmptyString
                                   | _ => ToString e
                                   end) l)
  | VObj _ => "[object Object]"
  end.

(** ToNumber; objects and arrays go through their string form. *)
Definition ToNumber (v : value) : float :=
  match v with
  | VUndefined => PrimFloat.nan
  | VNull => 0%float
  | VBool true => 1%float
  | VBool false => 0%float
  | VNum x => x
  | VStr s => StringToNumber B s
  | VArr _ | VObj _ => StringToNumber B (ToString v)
  end.

(** [v <= n] for a number [n]: false when [v] converts to NaN. *)
Definition le_num (v : value) (n : float) : bool :=
  PrimFloat.leb (ToNumber v) n.

End WithBrowser.

Definition ToBoolean (v : value) : bool :=
  match v with
  | VUndefined | VNull => false
  | VBool b => b
  | VNum x => negb (PrimFloat.eqb x 0%float || negb (PrimFloat.eqb x x))
  | VStr s => negb (String.eqb s EmptyString)
  | VArr _ | VObj _ => true
  end.

(** [a || b] *)
Definition or_else (a b : value) : value := if ToBoolean a then a else b.

(** [v === "s"] and [v === n] *)
Definition strict_eq_str (v : value) (s : string) : bool :=
  match v with
  | VStr t => String.eqb t s
  | _ => false
  end.

Definition strict_eq_num (v : value) (n : float) : bool :=
  match v with
  | VNum x => PrimFloat.eqb x n
  | _ => false
  end.

(** Property read [v.p], for the properties the script reads on API data:
    own properties of objects, and [length] of arrays and strings. *)
Definition Get (v : value) (p : string) : completion value :=
  match v with
  | VUndefined => Throw (TypeError (ReadOfUndefined p))
  | VNull => Throw (TypeError (ReadOfNull p))
  | VObj m => Normal (default VUndefined (m !! p))
  | VArr l => Normal (if String.eqb p "length" then VNum (of_nat (length l)) else VUndefined)
  | VStr s => Normal (if String.eqb p "length" then VNum (of_nat (String.length s)) else VUndefined)
  | VBool _ | VNum _ => Normal VUndefined
  end.

(** [v.forEach(f)]: only arrays have the method.  Yields the elements the
    callback is applied to, in order. *)
Definition forEach_items (v : value) : completion (list value) :=
  match v with
  | VArr l => Normal l
  | VUndefined => Throw (TypeError (ReadOfUndefined "forEach"))
  | VNull => Throw (TypeError (ReadOfNull "forEach"))
  | _ => Throw (TypeError (NotAFunction "forEach"))
  end.

(** An object literal [{k1: v1, ...}]. *)
Definition obj (fields : list (string * value)) : value :=
  VObj (list_to_map fields).

(** [String.prototype.split] with a one-character separator. *)
Fixpoint split (sep : ascii) (s : string) : list string :=
  match s with
  | EmptyString => [EmptyString]
  | String a r =>
      if Ascii.eqb a sep then EmptyString :: split sep r
      else match split sep r with
           | h :: t => String a h :: t
           | [] => [String a EmptyString]
           end
  end.

(** [!s.includes(c)] *)
Fixpoint free_of (c : ascii) (s : string) : bool :=
  match s with
  | EmptyString => true
  | String a r => negb (Ascii.eqb a c) && free_of c r
  end.

(** Indexing an array of strings: [undefined] out of range. *)
Definition index (l : list string) (i : nat) : value :=
  match l !! i with
  | Some s => VStr s
  | None => VUndefined
  end.

End JS.

(** ** ECMAScript dates (ECMA-262, "Date objects")

    Time values are integers (milliseconds since the epoch, UTC); [None]
    plays the role of [NaN], the time value of an invalid date. *)

Module JSDate.

Definition msPerDay : Z := 86400000.
Definition msPerHour : Z := 3600000.
Definition msPerMinute : Z := 60000.
Definition msPerSecond : Z := 1000.

Definition Day (t : Z) : Z := t / msPerDay.
Definition TimeWithinDay (t : Z) : Z := t mod msPerDay.

Definition DaysInYear (y : Z) : Z :=
  if negb (y mod 4 =? 0) then 365
  else if negb (y mod 100 =? 0) then 366
  else if negb (y mod 400 =? 0) then 365
  else 366.

Definition DayFromYear (y : Z) : Z :=
  365 * (y - 1970) + (y - 1969) / 4 - (y - 1901) / 100 + (y - 1601) / 400.

Definition TimeFromYear (y : Z) : Z := msPerDay * DayFromYear y.

(** "The largest integer y such that TimeFromYear(y) <= t": the mean
    Gregorian year of 146097/400 days gives a candidate that is off by at
    most one, see [YearFromDay_spec]. *)
Definition YearFromDay (d : Z) : Z :=
  let c := 1970 + (400 * d) / 146097 in
  if DayFromYear (c + 1) <=? d then c + 1
  else if DayFromYear c <=? d then c
  else c - 1.

Definition YearFromTime (t : Z) : Z := YearFromDay (Day t).

Definition LeapOfYear (y : Z) : Z := if DaysInYear y =? 366 then 1 else 0.
Definition InLeapYear (t : Z) : Z := LeapOfYear (YearFromTime t).

Definition DayWithinYear (t : Z) : Z := Day t - DayFromYear (YearFromTime t).

(** Day number within the year on which month [m] (0 = January) starts. *)
Definition MonthStart (m leap : Z) : Z :=
  match m with
  | 0 => 0
  | 1 => 31
  | 2 => 59 + leap
  | 3 => 90 + leap
  | 4 => 120 + leap
  | 5 => 151 + leap
  | 6 => 181 + leap
  | 7 => 212 + leap
  | 8 => 243 + leap
  | 9 => 273 + leap
  | 10 => 304 + leap
  | _ => 334 + leap
  end.

Definition MonthFromTime (t : Z) : Z :=
  let d := DayWithinYear t in
  let l := InLeapYear t in
  if d <? 31 then 0
  else if d <? 59 + l then 1
  else if d <? 90 + l then 2
  else if d <? 120 + l then 3
  else if d <? 151 + l then 4
  else if d <? 181 + l then 5
  else if d <? 212 + l then 6
  else if d <? 243 + l then 7
  else if d <? 273 + l then 8
  else if d <? 304 + l then 9
  else if d <? 334 + l then 10
  else 11.

Definition DateFromTime (t : Z) : Z :=
  let d := DayWithinYear t in
  let l := InLeapYear t in
  match MonthFromTime t with
  | 0 => d + 1
  | 1 => d - 30
  | 2 => d - 58 - l
  | 3 => d - 89 - l
  | 4 => d - 119 - l
  | 5 => d - 150 - l
  | 6 => d - 180 - l
  | 7 => d - 211 - l
  | 8 => d - 242 - l
  | 9 => d - 272 - l
  | 10 => d - 303 - l
  | _ => d - 333 - l
  end.

Definition HourFromTime (t : Z) : Z := (t / msPerHour) mod 24.
Definition MinFromTime (t : Z) : Z := (t / msPerMinute) mod 60.
Definition SecFromTime (t : Z) : Z := (t / msPerSecond) mod 60.
Definition msFromTime (t : Z) : Z := t mod msPerSecond.

(** MakeDay: the day number of the first of month [mn] of year [ym], plus
    [date - 1]; months beyond 0..11 carry into the year. *)
Definition MakeDay (year month date : Z) : Z :=
  let ym := year + month / 12 in
  let mn := month mod 12 in
  DayFromYear ym + MonthStart mn (LeapOfYear ym) + date - 1.

Definition MakeDate (day time : Z) : Z := day * msPerDay + time.

Definition TimeClip (t : Z) : option Z :=
  if Z.abs t >? 8640000000000000 then None else Some t.

(** *** Formatting ([Date.prototype.toISOString]) *)

Definition digit (n : Z) : ascii :=
  match n with
  | 0 => "0" | 1 => "1" | 2 => "2" | 3 => "3" | 4 => "4"
  | 5 => "5" | 6 => "6" | 7 => "7" | 8 => "8" | _ => "9"
  end%char.

(** The last [w] decimal digits of [n], most significant first. *)
Fixpoint pad (w : nat) (n : Z) : string :=
  match w with
  | O => EmptyString
  | S w' => pad w' (n / 10) +:+ String (digit (n mod 10)) EmptyString
  end.

(** Years 0..9999 print as four digits, all others as a sign and six. *)
Definition year_string (y : Z) : string :=
  if (0 <=? y) && (y <=? 9999) then pad 4 y
  else if y <? 0 then "-" +:+ pad 6 (- y)
  else "+" +:+ pad 6 y.

Definition iso_date (y m d : Z) : string :=
  year_string y +:+ "-" +:+ pad 2 m +:+ "-" +:+ pad 2 d.

Definition iso_time (t : Z) : string :=
  pad 2 (HourFromTime t) +:+ ":" +:+ pad 2 (MinFromTime t) +:+ ":" +:+
  pad 2 (SecFromTime t) +:+ "." +:+ pad 3 (msFromTime t) +:+ "Z".

(** *** Date objects: the time value and the methods the script calls *)

(** [toISOString] throws a RangeError on an invalid date. *)
Definition toISOString (tv : option Z) : completion string :=
  match tv with
  | None => Throw RangeError
  | Some t =>
      Normal (iso_date (YearFromTime t) (MonthFromTime t + 1) (DateFromTime t)
              +:+ "T" +:+ iso_time t)
  end.

Section WithBrowser.
Variable B : Browser.

Definition LocalTime (t : Z) : Z := t + LocalTZA B t true.
Definition UTC (t : Z) : Z := t - LocalTZA B t false.

Definition getDate (tv : option Z) : option Z :=
  match tv with
  | None => None
  | Some t => Some (DateFromTime (LocalTime t))
  end.

Definition setDate (tv : option Z) (date : option Z) : option Z :=
  match tv, date with
  | Some t, Some dt =>
      let t := LocalTime t in
      let newDate := MakeDate (MakeDay (YearFromTime t) (MonthFromTime t) dt)
                              (TimeWithinDay t) in
      TimeClip (UTC newDate)
  | _, _ => None
  end.

End WithBrowser.

End JSDate.

(** ** The Gregorian calendar, stated on its own

    Civil dates and their successor, written without reference to day
    numbers: this is the yardstick for "n calendar days later". *)

Module Calendar.

Record civil := Civil { c_year : Z; c_month : Z; c_day : Z }.

Definition is_leap (y : Z) : bool :=
  (y mod 4 =? 0) && (negb (y mod 100 =? 0) || (y mod 400 =? 0)).

Definition days_in_month (y m : Z) : Z :=
  match m with
  | 2 => if is_leap y then 29 else 28
  | 4 | 6 | 9 | 11 => 30
  | _ => 31
  end.

Definition next_civil (c : civil) : civil :=
  if c_day c <? days_in_month (c_year c) (c_month c)
  then Civil (c_year c) (c_month c) (c_day c + 1)
  else if c_month c <? 12
       then Civil (c_year c) (c_month c + 1) 1
       else Civil (c_year c + 1) 1 1.

Definition plus_days (n : nat) (c : civil) : civil := Nat.iter n next_civil c.

(** The civil date of a UTC time value. *)
Definition civil_of_time (t : Z) : civil :=
  Civil (JSDate.YearFromTime t) (JSDate.MonthFromTime t + 1) (JSDate.DateFromTime t).

(** A civil date in the form YYYY-MM-DD. *)
Definition iso_civil (c : civil) : string :=
  JSDate.iso_date (c_year c) (c_month c) (c_day c).

End Calendar.
(** ** The transport: [fetch] and the wrapper [apiFetch] *)

Module Fetch.

Inductive body :=
| JsonBody (v : value)                        (* JSON.stringify(v) *)
| FormBody (fields : list (string * string)). (* URLSearchParams *)

Record request := {
  url : string;
  method : string;
  headers : list (string * string);
  payload : option body;
}.

(** A response as the script observes it: the status line, and what
    [response.json()] settles to ([inl m]: it rejects with a SyntaxError of
    message [m]). *)
Record response := {
  status : Z;
  json : string + value;
}.

(** [response.ok] *)
Definition ok (r : response) : bool := (200 <=? status r) && (status r <=? 299).

(** How [fetch] settles: it rejects only when no response arrives. *)
Inductive fetch_result :=
| Failed (message : string)
| Responded (r : response).

Definition API_URL : string := "http://127.0.0.1:8000".

(** The [options] argument of [apiFetch].  Every caller passes either no
    body or [JSON.stringify] of an object literal, which is a non-empty and
    hence truthy string: [opt_body] holds the object that was serialised. *)
Record options := {
  opt_method : option string;
  opt_body : option value;
}.

Definition GET : options := {| opt_method := None; opt_body := None |}.
Definition POST : options := {| opt_method := Some "POST"; opt_body := None |}.
Definition DELETE : options := {| opt_method := Some "DELETE"; opt_body := None |}.
Definition POST_json (v : value) : options :=
  {| opt_method := Some "POST"; opt_body := Some v |}.

(** [response.json()] *)
Definition response_json (r : response) : completion value :=
  match json r with
  | inl m => Throw (SyntaxError m)
  | inr v => Normal v
  end.

Section WithBrowser.
Variable B : Browser.

(** [apiFetch] up to its [await fetch(...)]: the request it sends, built
    from the module variable [token] as it is at the time of the call. *)
Definition apiFetch_request (token : value) (endpoint : string) (o : options) : request :=
  {| url := API_URL +:+ endpoint;
     method := default "GET" (opt_method o);
     headers := ("Authorization", "Bearer " +:+ JS.ToString B token)
                :: match opt_body o with
                   | Some _ => [("Content-Type", "application/json")]
                   | None => []
                   end;
     payload := JsonBody <$> opt_body o |}.

(** [apiFetch] from the point where [fetch] has settled.  The second
    component records whether [response.json()] was called. *)
Definition apiFetch_settle (fr : fetch_result) : completion value * bool :=
  match fr with
  | Failed m => (Throw (NetworkFailure m), false)
  | Responded response =>
      if negb (ok response) then
        (errorData ← response_json response;
         detail ← JS.Get errorData "detail";
         Throw (Error (JS.ToString B (JS.or_else detail (VStr "An API error occurred")))),
         true)
      else if status response =? 204 then (Normal VNull, false)
      else (response_json response, true)
  end.

(** The whole call against a network that answers request [q] with
    [net q]. *)
Definition apiFetch (token : value) (net : request -> fetch_result)
    (endpoint : string) (o : options) : completion value :=
  fst (apiFetch_settle (net (apiFetch_request token endpoint o))).

End WithBrowser.

End Fetch.

(** ** The application *)

Module App.
Import Fetch.

(** The three fetches that [loadAdminReports] hands to [Promise.all]. *)
Inductive slot := Overdue | Repairs | Analytics.

(** Where a request in flight resumes: the async function (or form
    handler) suspended on it. *)
Inductive cont :=
| KRegister
| KLogin
| KLoadUserDashboard
| KLoadStudentEquipment
| KLoadStudentRequests
| KRequestItem
| KReturnItem
| KReportDamage
| KLoadAdminPending
| KAdminApprove
| KAdminReject
| KLoadAdminInventory
| KAddEquipment
| KAdminDeleteItem
| KLoadAdminReports (join : nat) (which : slot)
| KCheckOverdue
| KAdminCompleteRepair.

Record State := {
  token : value;  (* the module variable [token] *)
  userRole : value;  (* the module variable [userRole] *)
  localStorage : gmap string string;  (* [window.localStorage] *)
  display : gmap string string;  (* inline [style.display], by element id *)
  innerHTML : gmap string string;  (* [innerHTML] as last assigned, by element id *)
  message : option (string * string);  (* [globalMessage]: text and class *)
  active_tab : option string;  (* [data-tab] of the admin tab marked active *)
  pending : gmap nat (request * cont);  (* requests in flight and who awaits them *)
  joins : gmap nat (option value * option value * option value);  (* unsettled [Promise.all] calls *)
  next_request : nat;
  next_join : nat;
  sent : list request;  (* every request issued so far, oldest first *)
}.

Definition set_token (x : value) (s : State) : State :=
  {| token := x; userRole := userRole s; localStorage := localStorage s; display := display s;
     innerHTML := innerHTML s; message := message s; active_tab := active_tab s;
     pending := pending s; joins := joins s;
     next_request := next_request s; next_join := next_join s; sent := sent s |}.
Definition set_userRole (x : value) (s : State) : State :=
  {| token := token s; userRole := x; localStorage := localStorage s; display := display s;
     innerHTML := innerHTML s; message := message s; active_tab := active_tab s;
     pending := pending s; joins := joins s;
     next_request := next_request s; next_join := next_join s; sent := sent s |}.
Definition set_localStorage (x : gmap string string) (s : State) : State :=
  {| token := token s; userRole := userRole s; localStorage := x; display := display s;
     innerHTML := innerHTML s; message := message s; active_tab := active_tab s;
     pending := pending s; joins := joins s;
     next_request := next_request s; next_join := next_join s; sent := sent s |}.
Definition set_display (x : gmap string string) (s : State) : State :=
  {| token := token s; userRole := userRole s; localStorage := localStorage s; display := x;
     innerHTML := innerHTML s; message := message s; active_tab := active_tab s;
     pending := pending s; joins := joins s;
     next_request := next_request s; next_join := next_join s; sent := sent s |}.
Definition set_innerHTML (x : gmap string string) (s : State) : State :=
  {| token := token s; userRole := userRole s; localStorage := localStorage s; display := display s;
     innerHTML := x; message := message s; active_tab := active_tab s;
     pending := pending s; joins := joins s;
     next_request := next_request s; next_join := next_join s; sent := sent s |}.
Definition set_message (x : option (string * string)) (s : State) : State :=
  {| token := token s; userRole := userRole s; localStorage := localStorage s; display := display s;
     innerHTML := innerHTML s; message := x; active_tab := active_tab s;
     pending := pending s; joins := joins s;
     next_request := next_request s; next_join := next_join s; sent := sent s |}.
Definition set_active_tab (x : option string) (s : State) : State :=
  {| token := token s; userRole := userRole s; localStorage := localStorage s; display := display s;
     innerHTML := innerHTML s; message := message s; active_tab := x;
     pending := pending s; joins := joins s;
     next_request := next_request s; next_join := next_join s; sent := sent s |}.
Definition set_pending (x : gmap nat (request * cont)) (s : State) : State :=
  {| token := token s; userRole := userRole s; localStorage := localStorage s; display := display s;
     innerHTML := innerHTML s; message := message s; active_tab := active_tab s;
     pending := x; joins := joins s;
     next_request := next_request s; next_join := next_join s; sent := sent s |}.
Definition set_joins (x : gmap nat (option value * option value * option value)) (s : State) : State :=
  {| token := token s; userRole := userRole s; localStorage := localStorage s; display := display s;
     innerHTML := innerHTML s; message := message s; active_tab := active_tab s;
     pending := pending s; joins := x;
     next_request := next_request s; next_join := next_join s; sent := sent s |}.
Definition set_next_request (x : nat) (s : State) : State :=
  {| token := token s; userRole := userRole s; localStorage := localStorage s; display := display s;
     innerHTML := innerHTML s; message := message s; active_tab := active_tab s;
     pending := pending s; joins := joins s;
     next_request := x; next_join := next_join s; sent := sent s |}.
Definition set_next_join (x : nat) (s : State) : State :=
  {| token := token s; userRole := userRole s; localStorage := localStorage s; display := display s;
     innerHTML := innerHTML s; message := message s; active_tab := active_tab s;
     pending := pending s; joins := joins s;
     next_request := next_request s; next_join := x; sent := sent s |}.
Definition set_sent (x : list request) (s : State) : State :=
  {| token := token s; userRole := userRole s; localStorage := localStorage s; display := display s;
     innerHTML := innerHTML s; message := message s; active_tab := active_tab s;
     pending := pending s; joins := joins s;
     next_request := next_request s; next_join := next_join s; sent := x |}.

(** Handlers run in a state-and-exception monad. *)
Definition M (A : Type) : Type := State -> State * completion A.

#[global] Instance M_ret : MRet M := fun A a s => (s, Normal a).
#[global] Instance M_bind : MBind M := fun A C f m s =>
  match m s with
  | (s', Normal a) => f a s'
  | (s', Throw e) => (s', Throw e)
  end.

Definition get : M State := fun s => (s, Normal s).
Definition modify (f : State -> State) : M unit := fun s => (f s, Normal tt).
Definition throw {A : Type} (e : error) : M A := fun s => (s, Throw e).
Definition lift {A : Type} (c : completion A) : M A := fun s => (s, c).

(** [try { body } catch (error) { handler }] *)
Definition try_catch (body : M unit) (handler : error -> M unit) : M unit :=
  fun s =>
    match body s with
    | (s', Throw e) => handler e s'
    | r => r
    end.

(** [l.forEach(f)] *)
Fixpoint for_each {A : Type} (l : list A) (f : A -> M unit) : M unit :=
  match l with
  | [] => mret tt
  | x :: r => f x ;; for_each r f
  end.

(** The state a handler leaves behind, whether it returns or throws. *)
Definition run (m : M unit) (s : State) : State := fst (m s).

(** *** The document

    The page itself is not part of the script.  It is taken to provide
    every element the script names; the ids are listed here. *)
Definition document_ids : list string :=
  [ "auth-container"; "student-dashboard"; "admin-dashboard"; "logout-button";
    "global-message"; "show-register"; "show-login"; "login-card"; "register-card";
    "register-form"; "reg-username"; "reg-password"; "reg-role";
    "login-form"; "login-username"; "login-password";
    "equipment-list-tbody"; "my-requests-tbody"; "admin-pending-tbody";
    "admin-inventory-tbody"; "add-equipment-form"; "add-name"; "add-category";
    "add-quantity"; "overdue-tbody"; "repairs-tbody"; "analytics-tbody";
    "check-overdue-btn" ].

(** [document.getElementById(id) !== null] *)
Definition getElementById (id : string) : bool :=
  existsb (String.eqb id) document_ids.

(** [element.style.display = v] on an element held by the script. *)
Definition style_display (id v : string) : M unit :=
  modify (fun s => set_display (<[id := v]> (display s)) s).

Section WithBrowser.
Variable B : Browser.

(** [element.innerHTML = markup] and [element.innerHTML += markup] *)
Definition assign_innerHTML (id markup : string) : M unit :=
  modify (fun s => set_innerHTML (<[id := html_roundtrip B markup]> (innerHTML s)) s).

Definition append_innerHTML (id markup : string) : M unit :=
  modify (fun s =>
    set_innerHTML
      (<[id := html_roundtrip B (default EmptyString (innerHTML s !! id) +:+ markup)]>
         (innerHTML s)) s).

(** *** Helper functions *)

Definition showMessage (text type : string) : M unit :=
  modify (set_message (Some (text, type))).

Definition hideAllPages : M unit :=
  style_display "auth-container" "none";;
  style_display "student-dashboard" "none";;
  style_display "admin-dashboard" "none";;
  style_display "logout-button" "none".

Definition showPage (pageId : string) : M unit :=
  hideAllPages;;
  (if getElementById pageId then style_display pageId "block"
   else throw (TypeError (ReadOfNull "style")));;
  if negb (String.eqb pageId "auth-container")
  then style_display "logout-button" "block"
  else mret tt.

(** Sending a request and suspending on it. *)
Definition issue (q : request) (k : cont) : M unit :=
  modify (fun s =>
    set_sent (sent s ++ [q])
      (set_next_request (S (next_request s))
         (set_pending (<[next_request s := (q, k)]> (pending s)) s))).

(** [await apiFetch(endpoint, options)], the rest of the caller being [k] *)
Definition await_apiFetch (endpoint : string) (o : options) (k : cont) : M unit :=
  s ← get;
  issue (apiFetch_request B (token s) endpoint o) k.

Definition show_error (e : error) : M unit :=
  showMessage (error_message B e) "error".

(** *** Markup

    The template literals of the script, with their line breaks and
    indentation; [ln n text] is a line break, [n] spaces and [text]. *)

Fixpoint spaces (n : nat) : string :=
  match n with
  | O => EmptyString
  | S k => String " " (spaces k)
  end.

Definition ln (n : nat) (text : string) : string := JS.nl +:+ spaces n +:+ text.

Definition attr (name value : string) : string :=
  name +:+ "=" +:+ JS.dq +:+ value +:+ JS.dq.

Definition placeholder_row (colspan text : string) : string :=
  "<tr><td " +:+ attr "colspan" colspan +:+ ">" +:+ text +:+ "</td></tr>".

Definition equipment_row_markup (name category quantity status id disabled : string) : string :=
  ln 16 "<tr>" +:+
  ln 20 "<td>" +:+ name +:+ "</td>" +:+
  ln 20 "<td>" +:+ category +:+ "</td>" +:+
  ln 20 "<td>" +:+ quantity +:+ "</td>" +:+
  ln 20 "<td>" +:+ status +:+ "</td>" +:+
  ln 20 "<td>" +:+
  ln 24 "<button " +:+
  ln 28 (attr "class" "btn" +:+ " ") +:+
  ln 28 (attr "onclick" ("requestItem(" +:+ id +:+ ")")) +:+
  ln 28 disabled +:+ ">" +:+
  ln 28 "Request" +:+
  ln 24 "</button>" +:+
  ln 20 "</td>" +:+
  ln 16 "</tr>" +:+
  ln 12 EmptyString.

(** The condition of the [disabled] attribute:
    [item.available_quantity <= 0 || item.status !== 'available'] *)
Definition request_disabled (quantity status : value) : bool :=
  JS.le_num B quantity 0%float || negb (JS.strict_eq_str status "available").

Definition equipment_row (item : value) : completion string :=
  name ← JS.Get item "name";
  category ← JS.Get item "category";
  quantity ← JS.Get item "available_quantity";
  status ← JS.Get item "status";
  id ← JS.Get item "equipment_id";
  mret (equipment_row_markup
          (JS.ToString B name) (JS.ToString B category)
          (JS.ToString B quantity) (JS.ToString B status) (JS.ToString B id)
          (if request_disabled quantity status then "disabled" else EmptyString)).

Definition button (class call label : string) : string :=
  "<button " +:+ attr "class" class +:+ " " +:+ attr "onclick" call +:+ ">" +:+
  label +:+ "</button>".

Definition my_request_row (req : value) : completion string :=
  request_id ← JS.Get req "request_id";
  equipment_id ← JS.Get req "equipment_id";
  status ← JS.Get req "status";
  expected_return_date ← JS.Get req "expected_return_date";
  mret (ln 16 "<tr>" +:+
        ln 20 "<td>" +:+ JS.ToString B request_id +:+ "</td>" +:+
        ln 20 "<td>" +:+ JS.ToString B equipment_id +:+ "</td>" +:+
        ln 20 "<td>" +:+ JS.ToString B status +:+ "</td>" +:+
        ln 20 "<td>" +:+ JS.ToString B expected_return_date +:+ "</td>" +:+
        ln 20 "<td>" +:+
        ln 24 (if JS.strict_eq_str status "approved"
               then button "btn btn-success"
                      ("returnItem(" +:+ JS.ToString B request_id +:+ ")") "Return"
               else EmptyString) +:+
        ln 24 (if negb (JS.strict_eq_str status "returned")
               then button "btn btn-danger"
                      ("reportDamage(" +:+ JS.ToString B equipment_id +:+ ")") "Report Damage"
               else EmptyString) +:+
        ln 20 "</td>" +:+
        ln 16 "</tr>" +:+
        ln 12 EmptyString).

Definition pending_row (req : value) : completion string :=
  request_id ← JS.Get req "request_id";
  user_id ← JS.Get req "user_id";
  equipment_id ← JS.Get req "equipment_id";
  expected_return_date ← JS.Get req "expected_return_date";
  mret (ln 16 "<tr>" +:+
        ln 20 "<td>" +:+ JS.ToString B request_id +:+ "</td>" +:+
        ln 20 "<td>" +:+ JS.ToString B user_id +:+ "</td>" +:+
        ln 20 "<td>" +:+ JS.ToString B equipment_id +:+ "</td>" +:+
        ln 20 "<td>" +:+ JS.ToString B expected_return_date +:+ "</td>" +:+
        ln 20 "<td>" +:+
        ln 24 ("<input " +:+ attr "type" "date" +:+ " " +:+ attr "class" "form-input" +:+ " " +:+
               attr "id" ("return-date-" +:+ JS.ToString B request_id) +:+ " " +:+
               attr "value" (JS.ToString B expected_return_date) +:+ ">") +:+
        ln 20 "</td>" +:+
        ln 20 "<td>" +:+
        ln 24 (button "btn btn-success"
                 ("adminApprove(" +:+ JS.ToString B request_id +:+ ")") "Approve") +:+
        ln 24 (button "btn btn-danger"
                 ("adminReject(" +:+ JS.ToString B request_id +:+ ")") "Reject") +:+
        ln 20 "</td>" +:+
        ln 16 "</tr>" +:+
        ln 12 EmptyString).

Definition inventory_row (item : value) : completion string :=
  equipment_id ← JS.Get item "equipment_id";
  name ← JS.Get item "name";
  available_quantity ← JS.Get item "available_quantity";
  total_quantity ← JS.Get item "total_quantity";
  status ← JS.Get item "status";
  mret (ln 16 "<tr>" +:+
        ln 20 "<td>" +:+ JS.ToString B equipment_id +:+ "</td>" +:+
        ln 20 "<td>" +:+ JS.ToString B name +:+ "</td>" +:+
        ln 20 "<td>" +:+ JS.ToString B available_quantity +:+ " / " +:+
                         JS.ToString B total_quantity +:+ "</td>" +:+
        ln 20 "<td>" +:+ JS.ToString B status +:+ "</td>" +:+
        ln 20 "<td>" +:+
        ln 24 (button "btn btn-danger"
                 ("adminDeleteItem(" +:+ JS.ToString B equipment_id +:+ ")") "Delete") +:+
        ln 20 "</td>" +:+
        ln 16 "</tr>" +:+
        ln 12 EmptyString).

Definition overdue_row (item : value) : completion string :=
  request_id ← JS.Get item "request_id";
  user_id ← JS.Get item "user_id";
  equipment_id ← JS.Get item "equipment_id";
  status ← JS.Get item "status";
  mret ("<tr><td>" +:+ JS.ToString B request_id +:+ "</td><td>" +:+
        JS.ToString B user_id +:+ "</td><td>" +:+
        JS.ToString B equipment_id +:+ "</td><td>" +:+
        JS.ToString B status +:+ "</td></tr>").

Definition repair_row (item : value) : completion string :=
  repair_id ← JS.Get item "repair_id";
  equipment_id ← JS.Get item "equipment_id";
  description ← JS.Get item "description";
  repair_status ← JS.Get item "repair_status";
  mret (ln 16 "<tr>" +:+
        ln 20 "<td>" +:+ JS.ToString B repair_id +:+ "</td>" +:+
        ln 20 "<td>" +:+ JS.ToString B equipment_id +:+ "</td>" +:+
        ln 20 "<td>" +:+ JS.ToString B description +:+ "</td>" +:+
        ln 20 "<td>" +:+ JS.ToString B repair_status +:+ "</td>" +:+
        ln 20 "<td>" +:+
        ln 24 (if JS.strict_eq_str repair_status "pending"
               then "<button " +:+ attr "class" "btn" +:+ " " +:+
                    attr "onclick" ("adminCompleteRepair(" +:+ JS.ToString B repair_id +:+ ")") +:+
                    ">Complete</button>"
               else EmptyString) +:+
        ln 20 "</td>" +:+
        ln 16 "</tr>" +:+
        ln 12 EmptyString).

Definition analytics_row (item : value) : completion string :=
  equipment_id ← JS.Get item "equipment_id";
  name ← JS.Get item "name";
  request_count ← JS.Get item "request_count";
  mret ("<tr><td>" +:+ JS.ToString B equipment_id +:+ "</td><td>" +:+
        JS.ToString B name +:+ "</td><td>" +:+
        JS.ToString B request_count +:+ "</td></tr>").

(** *** Rendering a list into a table body

    [tbody.innerHTML = ''] followed by [list.forEach(item => tbody.innerHTML
    += row)].  The student lists and the pending list first test
    [list.length === 0] and show a placeholder row instead. *)

Definition append_rows (tbody : string) (row : value -> completion string)
    (list : value) : M unit :=
  items ← lift (JS.forEach_items list);
  for_each items (fun item => markup ← lift (row item); append_innerHTML tbody markup).

Definition render_list (tbody : string) (row : value -> completion string)
    (list : value) : M unit :=
  assign_innerHTML tbody EmptyString;;
  append_rows tbody row list.

Definition render_list_or_placeholder (tbody placeholder : string)
    (row : value -> completion string) (list : value) : M unit :=
  assign_innerHTML tbody EmptyString;;
  len ← lift (JS.Get list "length");
  if JS.strict_eq_num len 0%float
  then assign_innerHTML tbody placeholder
  else append_rows tbody row list.

(** *** Auth logic *)

Definition showRegister : M unit :=
  style_display "login-card" "none";;
  style_display "register-card" "block".

Definition showLogin : M unit :=
  style_display "login-card" "block";;
  style_display "register-card" "none".

(** The raw [fetch] calls of the two forms carry no credential. *)
Definition register_request (username password role : string) : request :=
  {| url := API_URL +:+ "/register/";
     method := "POST";
     headers := [("Content-Type", "application/json")];
     payload := Some (JsonBody (JS.obj [("username", VStr username);
                                        ("password", VStr password);
                                        ("role", VStr role)])) |}.

Definition token_request (username password : string) : request :=
  {| url := API_URL +:+ "/token";
     method := "POST";
     headers := [("Content-Type", "application/x-www-form-urlencoded")];
     payload := Some (FormBody [("username", username); ("password", password)]) |}.

(** [await fetch(...)] followed by [await response.json()] *)
Definition fetch_json (fr : fetch_result) : completion (response * value) :=
  match fr with
  | Failed m => Throw (NetworkFailure m)
  | Responded response => data ← response_json response; mret (response, data)
  end.

(** [throw new Error(data.detail || fallback)] when [!response.ok] *)
Definition check_ok (response : response) (data : value) (fallback : string) : completion unit :=
  if negb (ok response) then
    detail ← JS.Get data "detail";
    Throw (Error (JS.ToString B (JS.or_else detail (VStr fallback))))
  else mret tt.

Definition register_submit (username password role : string) : M unit :=
  issue (register_request username password role) KRegister.

(** [form.reset()] only touches the fields of the form, which belong to
    the user and reach the handlers as arguments. *)
Definition register_then (fr : fetch_result) : M unit :=
  try_catch
    ('(response, data) ← lift (fetch_json fr);
     lift (check_ok response data "Failed to register");;
     showMessage "Registration successful! Please log in." "success";;
     showLogin)
    show_error.

Definition loadStudentEquipment : M unit :=
  await_apiFetch "/equipment/" GET KLoadStudentEquipment.

Definition loadStudentRequests : M unit :=
  await_apiFetch "/requests/my/" GET KLoadStudentRequests.

Definition loadStudentData : M unit :=
  loadStudentEquipment;;
  loadStudentRequests.

Definition loadAdminPending : M unit :=
  await_apiFetch "/requests/pending/" GET KLoadAdminPending.

Definition loadAdminInventory : M unit :=
  await_apiFetch "/equipment/" GET KLoadAdminInventory.

(** [Promise.all] of three [apiFetch] calls: all three requests leave
    before the function suspends. *)
Definition loadAdminReports : M unit :=
  s ← get;
  let j := next_join s in
  modify (fun s => set_next_join (S j) (set_joins (<[j := (None, None, None)]> (joins s)) s));;
  await_apiFetch "/requests/overdue/" GET (KLoadAdminReports j Overdue);;
  await_apiFetch "/repairs/" GET (KLoadAdminReports j Repairs);;
  await_apiFetch "/analytics/usage" GET (KLoadAdminReports j Analytics).

Definition loadAdminData : M unit :=
  loadAdminPending;;
  loadAdminInventory;;
  loadAdminReports.

Definition loadUserDashboard : M unit :=
  await_apiFetch "/users/me/" GET KLoadUserDashboard.

Definition loadUserDashboard_then (r : completion value) : M unit :=
  try_catch
    (user ← lift r;
     role ← lift (JS.Get user "role");
     modify (set_userRole role);;
     (if JS.strict_eq_str role "admin"
      then showPage "admin-dashboard";; loadAdminData
      else showPage "student-dashboard";; loadStudentData);;
     showMessage "Login successful!" "success")
    (fun error =>
       show_error error;;
       modify (set_token VNull);;
       modify (fun s => set_localStorage (delete "token" (localStorage s)) s);;
       showPage "auth-container").

Definition login_submit (username password : string) : M unit :=
  issue (token_request username password) KLogin.

Definition login_then (fr : fetch_result) : M unit :=
  try_catch
    ('(response, data) ← lift (fetch_json fr);
     lift (check_ok response data "Failed to log in");;
     access_token ← lift (JS.Get data "access_token");
     modify (set_token access_token);;
     modify (fun s => set_localStorage (<["token" := JS.ToString B access_token]> (localStorage s)) s);;
     loadUserDashboard)
    show_error.

Definition logout : M unit :=
  modify (set_token VNull);;
  modify (set_userRole VNull);;
  modify (fun s => set_localStorage (delete "token" (localStorage s)) s);;
  showMessage "You have been logged out." "success";;
  showPage "auth-container".

(** *** Student dashboard logic *)

Definition loadStudentEquipment_then (r : completion value) : M unit :=
  try_catch
    (equipment ← lift r;
     render_list_or_placeholder "equipment-list-tbody"
       (placeholder_row "5" "No equipment available.") equipment_row equipment)
    show_error.

Definition loadStudentRequests_then (r : completion value) : M unit :=
  try_catch
    (requests ← lift r;
     render_list_or_placeholder "my-requests-tbody"
       (placeholder_row "5" "You have no requests.") my_request_row requests)
    show_error.

(** The two dates of a new request, from the clock reading [now]. *)
Definition requestItem_dates (now : Z) : completion (value * value) :=
  let today := Some now in
  iso ← JSDate.toISOString today;
  let borrowDate := JS.index (JS.split "T" iso) 0 in
  let today := JSDate.setDate B today ((fun d => d + 5) <$> JSDate.getDate B today) in
  iso ← JSDate.toISOString today;
  let returnDate := JS.index (JS.split "T" iso) 0 in
  mret (borrowDate, returnDate).

Definition requestItem (equipmentId : value) (now : Z) : M unit :=
  '(borrowDate, returnDate) ← lift (requestItem_dates now);
  await_apiFetch "/requests/"
    (POST_json (JS.obj [("equipment_id", equipmentId);
                        ("borrow_date", borrowDate);
                        ("expected_return_date", returnDate)]))
    KRequestItem.

(** The tail shared by the mutating actions: on success a message and the
    refresh, on failure the error message. *)
Definition requestItem_then (r : completion value) : M unit :=
  try_catch
    (lift r;;
     showMessage "Request submitted successfully!" "success";;
     loadStudentData)
    show_error.

Definition returnItem (requestId : value) : M unit :=
  await_apiFetch ("/requests/" +:+ JS.ToString B requestId +:+ "/return") POST KReturnItem.

Definition returnItem_then (r : completion value) : M unit :=
  try_catch
    (lift r;;
     showMessage "Item returned successfully!" "success";;
     loadStudentData)
    show_error.

(** [answer] is what [prompt] returned: [None] when it was dismissed. *)
Definition reportDamage (equipmentId : value) (answer : option string) : M unit :=
  match answer with
  | None => mret tt
  | Some description =>
      if String.eqb description EmptyString then mret tt
      else await_apiFetch ("/equipment/" +:+ JS.ToString B equipmentId +:+ "/report-damage")
             (POST_json (JS.obj [("equipment_id", equipmentId);
                                 ("description", VStr description)]))
             KReportDamage
  end.

Definition reportDamage_then (r : completion value) : M unit :=
  try_catch
    (lift r;;
     showMessage "Damage reported. Thank you." "success";;
     loadStudentData)
    show_error.

(** *** Admin dashboard logic *)

(** A click on the admin tab whose [data-tab] is [tab]; the page is taken
    to hold the matching content element [tab-<tab>]. *)
Definition tab_click (tab : string) : M unit :=
  modify (set_active_tab (Some tab));;
  if String.eqb tab "pending" then loadAdminPending
  else if String.eqb tab "equipment" then loadAdminInventory
  else if String.eqb tab "reports" then loadAdminReports
  else mret tt.

Definition loadAdminPending_then (r : completion value) : M unit :=
  try_catch
    (requests ← lift r;
     render_list_or_placeholder "admin-pending-tbody"
       (placeholder_row "6" "No pending requests.") pending_row requests)
    show_error.

(** [input] is the [value] of the element [return-date-<requestId>], or
    [None] when the document holds no such element. *)
Definition adminApprove (requestId : value) (input : option string) : M unit :=
  match input with
  | None => throw (TypeError (ReadOfNull "value"))
  | Some returnDate =>
      if String.eqb returnDate EmptyString
      then showMessage "Please set a return date." "error"
      else await_apiFetch ("/requests/" +:+ JS.ToString B requestId +:+ "/approve")
             (POST_json (JS.obj [("expected_return_date", VStr returnDate)]))
             KAdminApprove
  end.

Definition adminApprove_then (r : completion value) : M unit :=
  try_catch
    (lift r;;
     showMessage "Request approved." "success";;
     loadAdminPending)
    show_error.

Definition adminReject (requestId : value) : M unit :=
  await_apiFetch ("/requests/" +:+ JS.ToString B requestId +:+ "/reject") POST KAdminReject.

Definition adminReject_then (r : completion value) : M unit :=
  try_catch
    (lift r;;
     showMessage "Request rejected." "success";;
     loadAdminPending)
    show_error.

Definition loadAdminInventory_then (r : completion value) : M unit :=
  try_catch
    (equipment ← lift r;
     render_list "admin-inventory-tbody" inventory_row equipment)
    show_error.

Definition addEquipment_submit (name category quantity : string) : M unit :=
  await_apiFetch "/equipment/"
    (POST_json (JS.obj [("name", VStr name);
                        ("category", VStr category);
                        ("condition", VStr "New");
                        ("total_quantity", VNum (parseInt10 B quantity))]))
    KAddEquipment.

Definition addEquipment_then (r : completion value) : M unit :=
  try_catch
    (lift r;;
     showMessage "Equipment added." "success";;
     loadAdminInventory)
    show_error.

Definition adminDeleteItem (equipmentId : value) (confirmed : bool) : M unit :=
  if negb confirmed then mret tt
  else await_apiFetch ("/equipment/" +:+ JS.ToString B equipmentId) DELETE KAdminDeleteItem.

Definition adminDeleteItem_then (r : completion value) : M unit :=
  try_catch
    (lift r;;
     showMessage "Equipment deleted." "success";;
     loadAdminInventory)
    show_error.

(** The part of [loadAdminReports] after [await Promise.all(...)]. *)
Definition render_reports (overdue repairs analytics : value) : M unit :=
  render_list "overdue-tbody" overdue_row overdue;;
  render_list "repairs-tbody" repair_row repairs;;
  render_list "analytics-tbody" analytics_row analytics.

Definition fill (which : slot) (v : value)
    (slots : option value * option value * option value) :
    option value * option value * option value :=
  match slots, which with
  | (_, b, c), Overdue => (Some v, b, c)
  | (a, _, c), Repairs => (a, Some v, c)
  | (a, b, _), Analytics => (a, b, Some v)
  end.

(** One of the three fetches settles.  [Promise.all] rejects with the first
    rejection and fulfils once all three have fulfilled; after it has
    settled, the remaining fetches are of no consequence. *)
Definition loadAdminReports_then (j : nat) (which : slot) (r : completion value) : M unit :=
  s ← get;
  match joins s !! j with
  | None => mret tt
  | Some slots =>
      match r with
      | Throw error =>
          modify (fun s => set_joins (delete j (joins s)) s);;
          show_error error
      | Normal v =>
          match fill which v slots with
          | (Some overdue, Some repairs, Some analytics) =>
              modify (fun s => set_joins (delete j (joins s)) s);;
              try_catch (render_reports overdue repairs analytics) show_error
          | slots' =>
              modify (fun s => set_joins (<[j := slots']> (joins s)) s)
          end
      end
  end.

Definition checkOverdue_click : M unit :=
  await_apiFetch "/requests/check-overdue/" POST KCheckOverdue.

Definition checkOverdue_then (r : completion value) : M unit :=
  try_catch
    (data ← lift r;
     len ← lift (JS.Get data "length");
     showMessage (JS.ToString B len +:+ " item(s) marked as overdue.") "success";;
     loadAdminReports)
    show_error.

Definition adminCompleteRepair (repairId : value) : M unit :=
  await_apiFetch ("/repairs/" +:+ JS.ToString B repairId +:+ "/complete") POST
    KAdminCompleteRepair.

Definition adminCompleteRepair_then (r : completion value) : M unit :=
  try_catch
    (lift r;;
     showMessage "Repair marked as complete." "success";;
     loadAdminReports)
    show_error.

(** *** Initial app load *)

Definition init : M unit :=
  s ← get;
  match localStorage s !! "token" with
  | Some savedToken =>
      if negb (String.eqb savedToken EmptyString)
      then modify (set_token (VStr savedToken));; loadUserDashboard
      else showPage "auth-container"
  | None => showPage "auth-container"
  end.

(** The state in which the script starts when the page is loaded: module
    variables at their initial values, the document as shipped, nothing in
    flight; durable storage and the network log carry over. *)
Definition boot (s : State) : State :=
  {| token := VNull; userRole := VNull; localStorage := localStorage s;
     display := ∅; innerHTML := ∅; message := None; active_tab := None;
     pending := ∅; joins := ∅;
     next_request := next_request s; next_join := next_join s; sent := sent s |}.

(** *** Events *)

Inductive event :=
| Load
| ClickShowRegister
| ClickShowLogin
| SubmitRegister (username password role : string)
| SubmitLogin (username password : string)
| ClickLogout
| ClickTab (tab : string)
| CallRequestItem (equipmentId : value) (now : Z)
| CallReturnItem (requestId : value)
| CallReportDamage (equipmentId : value) (answer : option string)
| CallAdminApprove (requestId : value) (input : option string)
| CallAdminReject (requestId : value)
| SubmitAddEquipment (name category quantity : string)
| CallAdminDeleteItem (equipmentId : value) (confirmed : bool)
| ClickCheckOverdue
| CallAdminCompleteRepair (repairId : value)
| Deliver (id : nat) (fr : fetch_result).

(** Resuming the function suspended on a request. *)
Definition resume (k : cont) (fr : fetch_result) : M unit :=
  let r := fst (apiFetch_settle B fr) in
  match k with
  | KRegister => register_then fr
  | KLogin => login_then fr
  | KLoadUserDashboard => loadUserDashboard_then r
  | KLoadStudentEquipment => loadStudentEquipment_then r
  | KLoadStudentRequests => loadStudentRequests_then r
  | KRequestItem => requestItem_then r
  | KReturnItem => returnItem_then r
  | KReportDamage => reportDamage_then r
  | KLoadAdminPending => loadAdminPending_then r
  | KAdminApprove => adminApprove_then r
  | KAdminReject => adminReject_then r
  | KLoadAdminInventory => loadAdminInventory_then r
  | KAddEquipment => addEquipment_then r
  | KAdminDeleteItem => adminDeleteItem_then r
  | KLoadAdminReports j which => loadAdminReports_then j which r
  | KCheckOverdue => checkOverdue_then r
  | KAdminCompleteRepair => adminCompleteRepair_then r
  end.

(** What the [try] block of the function suspended at [k] receives from
    its [await]s: a value, or the error that sends it to its [catch]. *)
Definition awaited (k : cont) (fr : fetch_result) : completion value :=
  match k with
  | KRegister =>
      '(response, data) ← fetch_json fr;
      check_ok response data "Failed to register";; mret data
  | KLogin =>
      '(response, data) ← fetch_json fr;
      check_ok response data "Failed to log in";; mret data
  | _ => fst (apiFetch_settle B fr)
  end.

Definition deliver (id : nat) (fr : fetch_result) : M unit :=
  s ← get;
  match pending s !! id with
  | None => mret tt
  | Some (_, k) =>
      modify (fun s => set_pending (delete id (pending s)) s);;
      resume k fr
  end.

Definition handle (e : event) : M unit :=
  match e with
  | Load => modify boot;; init
  | ClickShowRegister => showRegister
  | ClickShowLogin => showLogin
  | SubmitRegister username password role => register_submit username password role
  | SubmitLogin username password => login_submit username password
  | ClickLogout => logout
  | ClickTab tab => tab_click tab
  | CallRequestItem equipmentId now => requestItem equipmentId now
  | CallReturnItem requestId => returnItem requestId
  | CallReportDamage equipmentId answer => reportDamage equipmentId answer
  | CallAdminApprove requestId input => adminApprove requestId input
  | CallAdminReject requestId => adminReject requestId
  | SubmitAddEquipment name category quantity => addEquipment_submit name category quantity
  | CallAdminDeleteItem equipmentId confirmed => adminDeleteItem equipmentId confirmed
  | ClickCheckOverdue => checkOverdue_click
  | CallAdminCompleteRepair repairId => adminCompleteRepair repairId
  | Deliver id fr => deliver id fr
  end.

Definition step (s : State) (e : event) : State := run (handle e) s.

End WithBrowser.

End App.

(** ** Sample platforms

    Concrete browsers on which the model is run in the examples below.
    Number formatting and parsing are only filled in for integers, which
    is what the identifiers and quantities of the service are. *)

Module Sample.

(** The integer value of a double, when it has one. *)
Definition integer_of_float (x : float) : option Z :=
  match Prim2SF x with
  | S754_zero _ => Some 0
  | S754_finite sign m e =>
      let n := if 0 <=? e then Z.pos m * 2 ^ e
               else if (Z.pos m) mod 2 ^ (- e) =? 0 then Z.pos m / 2 ^ (- e)
               else -1 in
      if n <? 0 then None else Some (if sign then - n else n)
  | _ => None
  end.

Fixpoint digits_of (fuel : nat) (n : Z) (acc : string) : string :=
  match fuel with
  | O => acc
  | S fuel' =>
      let acc' := String (JSDate.digit (n mod 10)) acc in
      if n <? 10 then acc' else digits_of fuel' (n / 10) acc'
  end.

Definition decimal (n : Z) : string :=
  if n <? 0 then "-" +:+ digits_of 20 (- n) EmptyString
  else digits_of 20 n EmptyString.

Definition number_to_string (x : float) : string :=
  match integer_of_float x with
  | Some n => decimal n
  | None => "NaN"
  end.

Definition digit_value (a : ascii) : option Z :=
  let n := Z.of_nat (nat_of_ascii a) in
  if (48 <=? n) && (n <=? 57) then Some (n - 48) else None.

Fixpoint parse_digits (s : string) (acc : Z) : option Z :=
  match s with
  | EmptyString => Some acc
  | String a r =>
      match digit_value a with
      | Some d => parse_digits r (10 * acc + d)
      | None => None
      end
  end.

Definition string_to_number (s : string) : float :=
  match s with
  | EmptyString => 0%float
  | _ =>
      match parse_digits s 0 with
      | Some n => PrimFloat.of_uint63 (Uint63.of_Z n)
      | None => PrimFloat.nan
      end
  end.

Definition parse_int (s : string) : float :=
  match s with
  | EmptyString => PrimFloat.nan
  | _ => string_to_number s
  end.

Definition type_error_message (te : type_error) : string :=
  match te with
  | ReadOfNull p => "Cannot read properties of null (reading '" +:+ p +:+ "')"
  | ReadOfUndefined p => "Cannot read properties of undefined (reading '" +:+ p +:+ "')"
  | NotAFunction p => p +:+ " is not a function"
  end.

Definition browser_in (zone : Z -> bool -> Z) : Browser :=
  {| LocalTZA := zone;
     Number_toString := number_to_string;
     StringToNumber := string_to_number;
     parseInt10 := parse_int;
     TypeError_message := type_error_message;
     RangeError_message := "Invalid time value";
     html_roundtrip := fun markup => markup |}.

(** A browser whose local time is UTC. *)
Definition utc : Browser := browser_in (fun _ _ => 0).

(** A browser in New York in 2026: UTC-5, and UTC-4 from 8 March 07:00 UTC
    to 1 November 06:00 UTC.  A local time that the clocks skip or repeat
    is read with the offset in force before the change. *)
Definition dst_start : Z := 1772953200000.
Definition dst_end : Z := 1793512800000.
Definition hours (n : Z) : Z := n * JSDate.msPerHour.

Definition new_york_zone (t : Z) (isUTC : bool) : Z :=
  if isUTC then
    if (dst_start <=? t) && (t <? dst_end) then hours (-4) else hours (-5)
  else
    if (dst_start - hours 4 <=? t) && (t <? dst_end - hours 4) then hours (-4) else hours (-5).

Definition new_york : Browser := browser_in new_york_zone.

(** The state of a freshly opened page with nothing stored. *)
Definition fresh : App.State :=
  {| App.token := VNull; App.userRole := VNull; App.localStorage := ∅;
     App.display := ∅; App.innerHTML := ∅; App.message := None;
     App.active_tab := None; App.pending := ∅; App.joins := ∅;
     App.next_request := 0; App.next_join := 0; App.sent := [] |}.

(** The state of a page left with a saved credential. *)
Definition returning : App.State :=
  App.set_localStorage {[ "token" := "t1" ]} fresh.

Definition bad_credentials : value :=
  JS.obj [("detail", VStr "Could not validate credentials")].

(** A response with status [st] and JSON body [v]. *)
Definition reply (st : Z) (v : value) : Fetch.fetch_result :=
  Fetch.Responded {| Fetch.status := st; Fetch.json := inr v |}.

Definition run_events (B : Browser) (s : App.State) (l : list App.event) : App.State :=
  fold_left (App.step B) l s.

(** A student who has just logged in: both lists are being fetched. *)
Definition student_home : App.State :=
  run_events utc fresh
    [App.Load; App.SubmitLogin "ann" "secret";
     App.Deliver 0 (reply 200 (JS.obj [("access_token", VStr "t1")]));
     App.Deliver 1 (reply 200 (JS.obj [("role", VStr "student")]))].

(** An equipment item that is out of stock. *)
Definition microscope : gmap string value :=
  list_to_map [("equipment_id", VNum 7); ("name", VStr "Microscope");
               ("category", VStr "Lab"); ("available_quantity", VNum 0);
               ("total_quantity", VNum 2); ("status", VStr "available")].

End Sample.

(** ** Vocabulary of the properties *)

Module Terms.
Import Fetch App.

(** The three page containers of the view router. *)
Definition pages : list string :=
  ["auth-container"; "student-dashboard"; "admin-dashboard"].

Definition displayed (s : State) (id : string) : Prop := display s !! id = Some "block".
Definition hidden (s : State) (id : string) : Prop := display s !! id = Some "none".

(** The router shows page [pageId]: that page and no other, and the logout
    button unless the page is the auth container. *)
Definition routed (s : State) (pageId : string) : Prop :=
  displayed s pageId
  /\ (forall p, p ∈ pages -> p <> pageId -> hidden s p)
  /\ (displayed s "logout-button" <-> pageId <> "auth-container")
  /\ (hidden s "logout-button" <-> pageId = "auth-container").


Definition same_session (s s' : State) : Prop :=
  token s' = token s /\ userRole s' = userRole s /\ localStorage s' = localStorage s.

(** The requests a step has sent. *)
Definition sends (s s' : State) (new : list request) : Prop :=
  sent s' = sent s ++ new.

(** The two requests that the forms send by [fetch] itself. *)
Definition unauthenticated (q : request) : Prop :=
  (exists username password role, q = register_request username password role)
  \/ (exists username password, q = token_request username password).

(** [pending] after suspending on the requests [l], the first of them
    under the number [n]. *)
Fixpoint enqueue (l : list (request * cont)) (n : nat)
    (p : gmap nat (request * cont)) : gmap nat (request * cont) :=
  match l with
  | [] => p
  | x :: r => enqueue r (S n) (<[n := x]> p)
  end.

(** All three fetches of a [Promise.all] have fulfilled. *)
Definition complete (slots : option value * option value * option value) : bool :=
  match slots with
  | (Some _, Some _, Some _) => true
  | _ => false
  end.


(** The markup of a table body: rows appended one after the other to an
    emptied body, up to the first item of which no row can be made. *)
Section WithBrowser.
Variable B : Browser.

Fixpoint rows_onto (row : value -> completion string) (items : list value)
    (acc : string) : string * completion unit :=
  match items with
  | [] => (acc, Normal tt)
  | item :: rest =>
      match row item with
      | Normal markup => rows_onto row rest (html_roundtrip B (acc +:+ markup))
      | Throw e => (acc, Throw e)
      end
  end.

Definition table (row : value -> completion string) (list : value) :
    string * completion unit :=
  match JS.forEach_items list with
  | Normal items => rows_onto row items (html_roundtrip B EmptyString)
  | Throw e => (html_roundtrip B EmptyString, Throw e)
  end.

Definition table_or_placeholder (placeholder : string)
    (row : value -> completion string) (list : value) : string * completion unit :=
  match JS.Get list "length" with
  | Normal len =>
      if JS.strict_eq_num len 0%float then (html_roundtrip B placeholder, Normal tt)
      else table row list
  | Throw e => (html_roundtrip B EmptyString, Throw e)
  end.

(** The list views: which table body each one fills, and with what. *)
Definition list_view (k : cont) : option (string * (value -> string * completion unit)) :=
  match k with
  | KLoadStudentEquipment =>
      Some ("equipment-list-tbody",
            table_or_placeholder (placeholder_row "5" "No equipment available.")
              (equipment_row B))
  | KLoadStudentRequests =>
      Some ("my-requests-tbody",
            table_or_placeholder (placeholder_row "5" "You have no requests.")
              (my_request_row B))
  | KLoadAdminPending =>
      Some ("admin-pending-tbody",
            table_or_placeholder (placeholder_row "6" "No pending requests.")
              (pending_row B))
  | KLoadAdminInventory =>
      Some ("admin-inventory-tbody", table (inventory_row B))
  | _ => None
  end.

(** The mutating actions and the lists they own: endpoint and list view of
    each refresh, in the order in which the requests leave.  The three
    report lists are fetched together, under a join numbered [j]. *)
Definition student_lists : list (string * cont) :=
  [("/equipment/", KLoadStudentEquipment); ("/requests/my/", KLoadStudentRequests)].

Definition report_lists (j : nat) : list (string * cont) :=
  [("/requests/overdue/", KLoadAdminReports j Overdue);
   ("/repairs/", KLoadAdminReports j Repairs);
   ("/analytics/usage", KLoadAdminReports j Analytics)].


(** The three report tables, each rendered from its own list. *)
Definition report_tables (overdue repairs analytics : value)
    (m : gmap string string) : gmap string string :=
  <["analytics-tbody" := fst (table (analytics_row B) analytics)]>
    (<["repairs-tbody" := fst (table (repair_row B) repairs)]>
       (<["overdue-tbody" := fst (table (overdue_row B) overdue)]> m)).

(** A request built by [apiFetch] while the credential was [tok]: its
    first header is [Authorization: Bearer <tok>]. *)
Definition bears (tok : value) (q : request) : Prop :=
  exists endpoint o, q = apiFetch_request B tok endpoint o.

(** The [GET] requests for a series of lists, with the credential [tok]. *)
Definition refresh (tok : value) (lists : list (string * cont)) : list (request * cont) :=
  List.map (fun '(endpoint, k) => (apiFetch_request B tok endpoint GET, k)) lists.

End WithBrowser.

End Terms.

(** ** Further vocabulary: requests, sessions and tables *)

Module Notions.
Import Fetch App Terms.

(** The value of the header [name] of a request. *)
Definition header (name : string) (q : request) : option string :=
  snd <$> List.find (fun h => String.eqb (fst h) name) (headers q).

(** The [Content-Type] that describes a payload. *)
Definition content_type_of (p : option body) : option string :=
  match p with
  | None => None
  | Some (JsonBody _) => Some "application/json"
  | Some (FormBody _) => Some "application/x-www-form-urlencoded"
  end.

(** A request whose headers, method and payload fit together. *)
Definition consistent (q : request) : Prop :=
  header "Content-Type" q = content_type_of (payload q)
  /\ method q ∈ ["GET"; "POST"; "DELETE"]
  /\ (method q <> "POST" -> payload q = None).

(** The credential held in memory is the one in durable storage. *)
Definition in_sync (B : Browser) (s : State) : Prop :=
  token s <> VNull ->
  localStorage s !! "token" = Some (JS.ToString B (token s)).

(** The dashboard of a role, and the lists fetched when it is shown: only
    the role ['admin'] leads to the admin dashboard. *)
Definition admin_lists (j : nat) : list (string * cont) :=
  ("/requests/pending/", KLoadAdminPending)
  :: ("/equipment/", KLoadAdminInventory)
  :: report_lists j.

Definition dashboard_of (role : value) : string :=
  if JS.strict_eq_str role "admin" then "admin-dashboard" else "student-dashboard".

Definition dashboard_lists (role : value) (j : nat) : list (string * cont) :=
  if JS.strict_eq_str role "admin" then admin_lists j else student_lists.

(** The lists behind the admin tabs. *)
Definition tab_lists (tab : string) (j : nat) : list (string * cont) :=
  if String.eqb tab "pending" then [("/requests/pending/", KLoadAdminPending)]
  else if String.eqb tab "equipment" then [("/equipment/", KLoadAdminInventory)]
  else if String.eqb tab "reports" then report_lists j
  else [].

(** The table bodies that the function suspended at [k] assigns to. *)
Definition report_tbodies : list string :=
  ["overdue-tbody"; "repairs-tbody"; "analytics-tbody"].

Definition writes (k : cont) : list string :=
  match k with
  | KLoadStudentEquipment => ["equipment-list-tbody"]
  | KLoadStudentRequests => ["my-requests-tbody"]
  | KLoadAdminPending => ["admin-pending-tbody"]
  | KLoadAdminInventory => ["admin-inventory-tbody"]
  | KLoadAdminReports _ _ => report_tbodies
  | _ => []
  end.

(** Suspending on one request [q], the rest of the function being [k]. *)
Definition suspended (s : State) (q : request) (k : cont) : State :=
  set_sent (sent s ++ [q])
    (set_next_request (S (next_request s))
       (set_pending (<[next_request s := (q, k)]> (pending s)) s)).

(** The placeholder row a list view shows for an empty list; the
    inventory has none. *)
Definition placeholder_of (k : cont) : string :=
  match k with
  | KLoadStudentEquipment => placeholder_row "5" "No equipment available."
  | KLoadStudentRequests => placeholder_row "5" "You have no requests."
  | KLoadAdminPending => placeholder_row "6" "No pending requests."
  | _ => EmptyString
  end.

(** The property on which a list view first touches the list. *)
Definition first_read (k : cont) : string :=
  match k with
  | KLoadAdminInventory => "forEach"
  | _ => "length"
  end.

(** The message a function falls back on when a failed answer carries no
    usable [detail]. *)
Definition fallback_of (k : cont) : string :=
  match k with
  | KRegister => "Failed to register"
  | KLogin => "Failed to log in"
  | _ => "An API error occurred"
  end.

(** The two classes of the message area. *)
Definition message_classes : list string := ["success"; "error"].



(** The two cards of the auth page. *)
Definition login_shown (s : State) : Prop :=
  displayed s "login-card" /\ hidden s "register-card".

Definition register_shown (s : State) : Prop :=
  hidden s "login-card" /\ displayed s "register-card".

Section WithBrowser.
Variable B : Browser.


(** The table body and the row template of each list view. *)
Definition view_row (k : cont) : option (string * (value -> completion string)) :=
  match k with
  | KLoadStudentEquipment => Some ("equipment-list-tbody", equipment_row B)
  | KLoadStudentRequests => Some ("my-requests-tbody", my_request_row B)
  | KLoadAdminPending => Some ("admin-pending-tbody", pending_row B)
  | KLoadAdminInventory => Some ("admin-inventory-tbody", inventory_row B)
  | _ => None
  end.

(** The request that looks up the role of the user holding [tok]. *)
Definition role_lookup (tok : value) : request :=
  apiFetch_request B tok "/users/me/" GET.

End WithBrowser.

End Notions.

(** * Properties *)

(** ** Dates *)

Module DateFacts.
Import JSDate Calendar.

Ltac zdiv := Z.to_euclidean_division_equations; lia.

(** [YearFromDay] is the year that contains the day. *)
Lemma YearFromDay_spec d :
  DayFromYear (YearFromDay d) <= d < DayFromYear (YearFromDay d + 1).
Proof.
  unfold YearFromDay. cbv zeta.
  destruct (Z.leb_spec (DayFromYear (1970 + 400 * d / 146097 + 1)) d);
    [|destruct (Z.leb_spec (DayFromYear (1970 + 400 * d / 146097)) d)];
    unfold DayFromYear in *; zdiv.
Qed.

Lemma DayFromYear_succ y : DayFromYear (y + 1) = DayFromYear y + DaysInYear y.
Proof.
  unfold DayFromYear, DaysInYear.
  destruct (Z.eqb_spec (y mod 4) 0), (Z.eqb_spec (y mod 100) 0),
    (Z.eqb_spec (y mod 400) 0); cbn [negb]; zdiv.
Qed.

Lemma DayFromYear_mono a b : a <= b -> DayFromYear a <= DayFromYear b.
Proof. unfold DayFromYear. intros. zdiv. Qed.

Lemma YearFromDay_unique d y :
  DayFromYear y <= d < DayFromYear (y + 1) -> YearFromDay d = y.
Proof.
  intros H. pose proof (YearFromDay_spec d) as S.
  destruct (Z.lt_trichotomy (YearFromDay d) y) as [L|[E|G]]; [|exact E|].
  - pose proof (DayFromYear_mono (YearFromDay d + 1) y ltac:(lia)). lia.
  - pose proof (DayFromYear_mono (y + 1) (YearFromDay d) ltac:(lia)). lia.
Qed.

Lemma LeapOfYear_is_leap y : LeapOfYear y = if is_leap y then 1 else 0.
Proof.
  unfold LeapOfYear, DaysInYear, is_leap.
  destruct (y mod 4 =? 0), (y mod 100 =? 0), (y mod 400 =? 0); reflexivity.
Qed.

Lemma DaysInYear_leap y : DaysInYear y = 365 + LeapOfYear y.
Proof.
  unfold LeapOfYear, DaysInYear.
  destruct (y mod 4 =? 0), (y mod 100 =? 0), (y mod 400 =? 0); reflexivity.
Qed.

Lemma Day_next t : Day (t + msPerDay) = Day t + 1.
Proof. unfold Day, msPerDay. zdiv. Qed.

Ltac month_consts :=
  change (0 + 1) with 1 in *; change (1 + 1) with 2 in *; change (2 + 1) with 3 in *;
  change (3 + 1) with 4 in *; change (4 + 1) with 5 in *; change (5 + 1) with 6 in *;
  change (6 + 1) with 7 in *; change (7 + 1) with 8 in *; change (8 + 1) with 9 in *;
  change (9 + 1) with 10 in *; change (10 + 1) with 11 in *; change (11 + 1) with 12 in *.

Ltac split_ifs :=
  repeat match goal with
  | |- context [if ?a <? ?b then _ else _] => destruct (Z.ltb_spec a b)
  | H : context [if ?a <? ?b then _ else _] |- _ => destruct (Z.ltb_spec a b)
  end.

(** One day later on the time line is the next date of the calendar. *)
Lemma civil_of_time_next t :
  civil_of_time (t + msPerDay) = next_civil (civil_of_time t).
Proof.
  pose proof (YearFromDay_spec (Day t)) as S.
  rewrite DayFromYear_succ, DaysInYear_leap in S.
  unfold civil_of_time, next_civil, days_in_month. cbn [c_year c_month c_day].
  unfold DateFromTime, MonthFromTime, InLeapYear, DayWithinYear, YearFromTime.
  rewrite Day_next.
  set (d := Day t) in *. set (Y := YearFromDay d) in *.
  pose proof (LeapOfYear_is_leap Y) as HL.
  pose proof (LeapOfYear_is_leap (Y + 1)) as HL'.
  destruct (Z_lt_dec (d + 1) (DayFromYear (Y + 1))) as [In|Out].
  - rewrite (YearFromDay_unique (d + 1) Y)
      by (rewrite DayFromYear_succ, DaysInYear_leap in *; lia).
    rewrite DayFromYear_succ, DaysInYear_leap in In.
    set (w := d - DayFromYear Y) in *.
    replace (d + 1 - DayFromYear Y) with (w + 1) by (unfold w; lia).
    assert (0 <= w) by (unfold w; lia).
    assert (w + 1 < 365 + LeapOfYear Y) by (unfold w; lia).
    clearbody w. clear S In HL'.
    destruct (is_leap Y); rewrite HL in *; clear HL;
      split_ifs; try lia; month_consts; cbn in *; split_ifs; try lia; f_equal; lia.
  - rewrite DayFromYear_succ, DaysInYear_leap in Out.
    rewrite (YearFromDay_unique (d + 1) (Y + 1)).
    2:{ rewrite !DayFromYear_succ, !DaysInYear_leap.
        destruct (is_leap (Y + 1)); rewrite HL'; lia. }
    rewrite DayFromYear_succ, DaysInYear_leap.
    set (w := d - DayFromYear Y) in *.
    replace (d + 1 - (DayFromYear Y + (365 + LeapOfYear Y))) with 0
      by (unfold w in *; lia).
    assert (Hw : w = 364 + LeapOfYear Y) by (unfold w in *; lia).
    clearbody w. clear S Out. rewrite Hw.
    destruct (is_leap Y), (is_leap (Y + 1)); rewrite HL, HL'; month_consts; cbn; reflexivity.
Qed.

Lemma civil_of_time_plus_days n t :
  civil_of_time (t + Z.of_nat n * msPerDay) = plus_days n (civil_of_time t).
Proof.
  induction n as [|n IH].
  - cbn. f_equal. lia.
  - replace (t + Z.of_nat (S n) * msPerDay) with (t + Z.of_nat n * msPerDay + msPerDay) by lia.
    rewrite civil_of_time_next, IH. reflexivity.
Qed.

(** Moving the day of the month within [setDate] shifts the day number by
    the same amount, whatever the month lengths in between. *)
Lemma MakeDay_same_month t dt :
  MakeDay (YearFromTime t) (MonthFromTime t) dt = Day t + (dt - DateFromTime t).
Proof.
  unfold MakeDay, DateFromTime, MonthFromTime, InLeapYear, DayWithinYear.
  set (Y := YearFromTime t).
  set (w := Day t - DayFromYear Y).
  assert (Hw : Day t = DayFromYear Y + w) by (unfold w; lia).
  rewrite Hw. clearbody w. clear Hw.
  split_ifs;
    repeat match goal with
    | |- context [?m / 12] =>
        let v := eval vm_compute in (m / 12) in change (m / 12) with v
    | |- context [?m mod 12] =>
        let v := eval vm_compute in (m mod 12) in change (m mod 12) with v
    end;
    cbn [MonthStart]; rewrite !Z.add_0_r; lia.
Qed.

Lemma MakeDate_Day t n :
  MakeDate (Day t + n) (TimeWithinDay t) = t + n * msPerDay.
Proof. unfold MakeDate, Day, TimeWithinDay, msPerDay. zdiv. Qed.

End DateFacts.

(** ** The dates of a new request *)

Module RequestFacts.
Import JSDate Calendar DateFacts Fetch.

Lemma free_of_app c a b : JS.free_of c (a +:+ b) = JS.free_of c a && JS.free_of c b.
Proof.
  induction a as [|x a IH]; simpl; [reflexivity|].
  rewrite IH. apply andb_assoc.
Qed.

Lemma split_at_first c a b :
  JS.free_of c a = true -> JS.split c (a +:+ String c b) = a :: JS.split c b.
Proof.
  induction a as [|x a IH]; simpl; intros H.
  - rewrite Ascii.eqb_refl. reflexivity.
  - apply andb_prop in H as [Hx Ha]. apply negb_true_iff in Hx.
    rewrite Hx, (IH Ha). reflexivity.
Qed.

Lemma digit_not_T k : Ascii.eqb (digit k) "T" = false.
Proof.
  destruct k as [|p|p]; try reflexivity;
    do 4 (try destruct p as [p|p|]); reflexivity.
Qed.

Lemma free_of_pad w n : JS.free_of "T" (pad w n) = true.
Proof.
  revert n. induction w as [|w IH]; intros n; simpl; [reflexivity|].
  rewrite free_of_app, IH. simpl. rewrite digit_not_T. reflexivity.
Qed.

Lemma free_of_iso_date y m d : JS.free_of "T" (iso_date y m d) = true.
Proof.
  unfold iso_date, year_string.
  destruct (_ && _); [|destruct (_ <? _)];
    rewrite ?free_of_app, ?free_of_pad; reflexivity.
Qed.

(** [toISOString().split('T')[0]] is the date part. *)
Lemma iso_date_part y m d rest :
  JS.index (JS.split "T" (iso_date y m d +:+ String "T" rest)) 0 = VStr (iso_date y m d).
Proof. rewrite split_at_first by apply free_of_iso_date. reflexivity. Qed.

(** With the same offset at both ends, [setDate(getDate() + 5)] moves the
    time value by five days exactly. *)
Lemma setDate_plus_5 (B : Browser) now :
  LocalTZA B (LocalTime B now + 5 * msPerDay) false = LocalTZA B now true ->
  Z.abs (now + 5 * msPerDay) <= 8640000000000000 ->
  setDate B (Some now) ((fun d => d + 5) <$> getDate B (Some now))
  = Some (now + 5 * msPerDay).
Proof.
  intros Hoff Hrange. cbn.
  rewrite MakeDay_same_month.
  replace (DateFromTime (LocalTime B now) + 5 - DateFromTime (LocalTime B now)) with 5 by lia.
  rewrite MakeDate_Day. unfold UTC. rewrite Hoff. unfold LocalTime, TimeClip.
  replace (now + LocalTZA B now true + 5 * msPerDay - LocalTZA B now true)
    with (now + 5 * msPerDay) by lia.
  destruct (Z.gtb_spec (Z.abs (now + 5 * msPerDay)) 8640000000000000); [lia|reflexivity].
Qed.

Lemma requestItem_dates_steady (B : Browser) now :
  LocalTZA B (LocalTime B now + 5 * msPerDay) false = LocalTZA B now true ->
  Z.abs (now + 5 * msPerDay) <= 8640000000000000 ->
  App.requestItem_dates B now
  = Normal (VStr (iso_civil (civil_of_time now)),
            VStr (iso_civil (plus_days 5 (civil_of_time now)))).
Proof.
  intros Hoff Hrange. unfold App.requestItem_dates.
  rewrite setDate_plus_5 by assumption.
  pose proof (civil_of_time_plus_days 5 now) as H5.
  change (Z.of_nat 5) with 5 in H5. rewrite <- H5. clear H5.
  unfold toISOString, mbind, completion_bind, mret, completion_ret.
  change (String.append "T") with (String "T").
  rewrite !iso_date_part. reflexivity.
Qed.

(** C1 (as amended).  When the local UTC offset at the shifted local time
    is the offset in force now (always so in a zone with a fixed offset),
    the request that [requestItem] submits has [borrow_date] equal to the
    current UTC calendar date and [expected_return_date] equal to the date
    exactly five calendar days later, month and year ends included. *)
Theorem requestItem_body_steady_offset (B : Browser) (s : App.State)
    (equipmentId : value) (now : Z) :
  LocalTZA B (LocalTime B now + 5 * msPerDay) false = LocalTZA B now true ->
  Z.abs (now + 5 * msPerDay) <= 8640000000000000 ->
  App.sent (App.step B s (App.CallRequestItem equipmentId now))
  = App.sent s ++
    [apiFetch_request B (App.token s) "/requests/"
       (POST_json
          (JS.obj [("equipment_id", equipmentId);
                   ("borrow_date", VStr (iso_civil (civil_of_time now)));
                   ("expected_return_date",
                    VStr (iso_civil (plus_days 5 (civil_of_time now))))]))].
Proof.
  intros Hoff Hrange.
  unfold App.step, App.run, App.handle, App.requestItem.
  unfold mbind, App.M_bind, App.lift.
  rewrite requestItem_dates_steady by assumption.
  reflexivity.
Qed.

(** On 29 January the return date is 3 February. *)
Lemma requestItem_body_steady_offset_witness :
  App.sent (App.step Sample.utc Sample.fresh (App.CallRequestItem (VNum 7) 1769688000000))
  = [apiFetch_request Sample.utc VNull "/requests/"
       (POST_json
          (JS.obj [("equipment_id", VNum 7);
                   ("borrow_date", VStr "2026-01-29");
                   ("expected_return_date", VStr "2026-02-03")]))].
Proof.
  pose proof (requestItem_body_steady_offset Sample.utc Sample.fresh (VNum 7) 1769688000000) as H.
  apply H; [reflexivity | vm_compute; discriminate].
Defined.

(** C1, counterexample.  In New York on the evening of 7 March 2026 local
    time (00:30 UTC on 8 March), with daylight saving time starting within
    the five days, the request carries 8 March as borrow date and 12 March
    as return date: four calendar days apart, and the borrow date is not
    the local date. *)
Lemma requestItem_dates_not_five_days :
  App.requestItem_dates Sample.new_york 1772929800000
  = Normal (VStr (iso_civil (Civil 2026 3 8)), VStr (iso_civil (Civil 2026 3 12)))
  /\ civil_of_time 1772929800000 = Civil 2026 3 8
  /\ civil_of_time (LocalTime Sample.new_york 1772929800000) = Civil 2026 3 7
  /\ plus_days 5 (Civil 2026 3 8) = Civil 2026 3 13
  /\ iso_civil (Civil 2026 3 12) <> iso_civil (Civil 2026 3 13).
Proof.
  repeat split; try (vm_compute; reflexivity).
  vm_compute. discriminate.
Qed.

End RequestFacts.

(** ** The transport wrapper *)

Module FetchFacts.
Import Fetch.

Lemma apiFetch_unfold (B : Browser) token net endpoint o fr :
  net (apiFetch_request B token endpoint o) = fr ->
  apiFetch B token net endpoint o = fst (apiFetch_settle B fr).
Proof. intros <-. reflexivity. Qed.




(** C3.  A 204 response resolves to [null] and [response.json()] is not
    called, whatever the body; any other 2xx response resolves to the
    parsed JSON body. *)
Theorem apiFetch_success (B : Browser) (token : value)
    (net : request -> fetch_result) (endpoint : string) (o : options)
    (response : response) :
  net (apiFetch_request B token endpoint o) = Responded response ->
  (status response = 204 ->
   apiFetch B token net endpoint o = Normal VNull
   /\ snd (apiFetch_settle B (Responded response)) = false)
  /\ (ok response = true -> status response <> 204 ->
      snd (apiFetch_settle B (Responded response)) = true
      /\ forall v, json response = inr v ->
                   apiFetch B token net endpoint o = Normal v).
Proof.
  intros Hnet. rewrite (apiFetch_unfold _ _ _ _ _ _ Hnet). unfold apiFetch_settle.
  split.
  - intros H204. unfold ok. rewrite H204. split; reflexivity.
  - intros Hok Hne. rewrite Hok.
    destruct (Z.eqb_spec (status response) 204); [contradiction|].
    split; [reflexivity|]. intros v Hv. simpl. unfold response_json.
    rewrite Hv. reflexivity.
Qed.

(** A 204 whose body is not JSON resolves to [null] all the same. *)
Lemma apiFetch_success_witness :
  apiFetch Sample.utc VNull
    (fun _ => Responded {| status := 204; json := inl "Unexpected end of JSON input" |})
    "/requests/1/return" POST
  = Normal VNull.
Proof.
  refine (proj1 (proj1
    (apiFetch_success Sample.utc VNull
       (fun _ => Responded {| status := 204; json := inl "Unexpected end of JSON input" |})
       "/requests/1/return" POST
       {| status := 204; json := inl "Unexpected end of JSON input" |}
       eq_refl) eq_refl)).
Defined.

End FetchFacts.

(** ** The application *)

Module AppFacts.
Import Fetch App Terms.

(** Running a handler symbolically: with the state taken apart into its
    fields, unfold the handlers, the monad and the record updates. *)
Ltac app_unfold :=
  cbv [step run handle deliver resume
       register_submit register_then login_submit login_then logout
       loadUserDashboard loadUserDashboard_then
       loadStudentData loadStudentEquipment loadStudentRequests
       loadStudentEquipment_then loadStudentRequests_then
       requestItem_then returnItem returnItem_then reportDamage reportDamage_then
       tab_click loadAdminData loadAdminPending loadAdminPending_then
       adminApprove adminApprove_then adminReject adminReject_then
       loadAdminInventory loadAdminInventory_then
       addEquipment_submit addEquipment_then adminDeleteItem adminDeleteItem_then
       loadAdminReports loadAdminReports_then render_reports
       checkOverdue_click checkOverdue_then adminCompleteRepair adminCompleteRepair_then
       init showRegister showLogin showPage hideAllPages style_display
       await_apiFetch issue show_error showMessage
       try_catch lift throw modify get mbind mret M_bind M_ret
       token userRole localStorage display innerHTML message active_tab
       pending joins next_request next_join sent boot
       set_token set_userRole set_localStorage set_display set_innerHTML set_message
       set_active_tab set_pending set_joins set_next_request set_next_join set_sent].

(** Decide the tests on string literals. *)
Ltac closed_tests :=
  repeat match goal with
  | |- context [getElementById ?x] =>
      let v := eval vm_compute in (getElementById x) in
      lazymatch v with
      | true => change (getElementById x) with true
      | false => change (getElementById x) with false
      end
  | |- context [String.eqb ?a ?b] =>
      let v := eval vm_compute in (String.eqb a b) in
      lazymatch v with
      | true => change (String.eqb a b) with true
      | false => change (String.eqb a b) with false
      end
  end; cbn [negb].

Ltac destruct_state s :=
  destruct s as [tok urole store disp inner msg atab pend jns nreq njoin snt];
  cbn [token userRole localStorage display innerHTML message active_tab
       pending joins next_request next_join sent] in *.

Ltac exec := app_unfold; closed_tests; app_unfold; cbn [fst snd].


(** Delivering the response to a request in flight resumes whoever awaits
    it; a response to anything else is dropped. *)
Lemma deliver_pending (B : Browser) s id q k fr :
  pending s !! id = Some (q, k) ->
  step B s (Deliver id fr)
  = run (resume B k fr) (set_pending (delete id (pending s)) s).
Proof.
  intros Hp. unfold step, handle, deliver, run.
  unfold mbind at 1. unfold M_bind at 1. unfold get. rewrite Hp. reflexivity.
Qed.

Lemma deliver_unknown (B : Browser) s id fr :
  pending s !! id = None -> step B s (Deliver id fr) = s.
Proof.
  intros Hp. unfold step, handle, deliver, run.
  unfold mbind at 1. unfold M_bind at 1. unfold get. rewrite Hp. reflexivity.
Qed.

(** *** Rendering loops *)

Lemma for_each_rows (B : Browser) tbody row items :
  forall s acc,
    innerHTML s !! tbody = Some acc ->
    for_each items (fun item => markup ← lift (row item); append_innerHTML B tbody markup) s
    = (set_innerHTML (<[tbody := fst (rows_onto B row items acc)]> (innerHTML s)) s,
       snd (rows_onto B row items acc)).
Proof.
  induction items as [|item rest IH]; intros s acc Hacc.
  - cbn [for_each rows_onto fst snd]. rewrite insert_id by exact Hacc.
    destruct s; reflexivity.
  - cbn [for_each rows_onto].
    unfold mbind at 1. unfold M_bind at 1. unfold mbind at 1. unfold M_bind at 1. unfold lift at 1.
    destruct (row item) as [markup|e].
    + unfold append_innerHTML at 1. unfold modify at 1.
      rewrite (IH _ (html_roundtrip B (acc +:+ markup))).
      * destruct_state s. cbn [set_innerHTML innerHTML]. rewrite Hacc. cbn [default].
        rewrite insert_insert_eq. reflexivity.
      * destruct_state s. cbn [set_innerHTML innerHTML]. rewrite Hacc. apply lookup_insert_eq.
    + cbn [fst snd]. rewrite insert_id by exact Hacc. destruct s; reflexivity.
Qed.

Lemma append_rows_eq (B : Browser) tbody row list s acc :
  innerHTML s !! tbody = Some acc ->
  append_rows B tbody row list s
  = match JS.forEach_items list with
    | Normal items =>
        (set_innerHTML (<[tbody := fst (rows_onto B row items acc)]> (innerHTML s)) s,
         snd (rows_onto B row items acc))
    | Throw e => (s, Throw e)
    end.
Proof.
  intros Hacc. unfold append_rows. unfold mbind at 1. unfold M_bind at 1. unfold lift at 1.
  destruct (JS.forEach_items list) as [items|e]; [|reflexivity].
  apply for_each_rows. exact Hacc.
Qed.

Lemma render_list_eq (B : Browser) tbody row list s :
  render_list B tbody row list s
  = (set_innerHTML (<[tbody := fst (table B row list)]> (innerHTML s)) s,
     snd (table B row list)).
Proof.
  unfold render_list, table. unfold mbind at 1. unfold M_bind at 1.
  unfold assign_innerHTML, modify.
  rewrite (append_rows_eq B tbody row list _ (html_roundtrip B EmptyString)).
  2:{ destruct_state s. cbn [set_innerHTML innerHTML]. apply lookup_insert_eq. }
  destruct_state s. cbn [set_innerHTML innerHTML].
  destruct (JS.forEach_items list); cbn [fst snd]; rewrite ?insert_insert_eq; reflexivity.
Qed.

Lemma render_list_or_placeholder_eq (B : Browser) tbody placeholder row list s :
  render_list_or_placeholder B tbody placeholder row list s
  = (set_innerHTML
       (<[tbody := fst (table_or_placeholder B placeholder row list)]> (innerHTML s)) s,
     snd (table_or_placeholder B placeholder row list)).
Proof.
  unfold render_list_or_placeholder, table_or_placeholder, table.
  unfold mbind at 1. unfold M_bind at 1. unfold assign_innerHTML at 1. unfold modify at 1.
  unfold mbind at 1. unfold M_bind at 1. unfold lift at 1.
  destruct (JS.Get list "length") as [len|e]; [|reflexivity].
  destruct (JS.strict_eq_num len 0).
  - unfold assign_innerHTML, modify. destruct_state s. cbn [set_innerHTML innerHTML fst snd].
    rewrite insert_insert_eq. reflexivity.
  - rewrite (append_rows_eq B tbody row list _ (html_roundtrip B EmptyString)).
    2:{ destruct_state s. cbn [set_innerHTML innerHTML]. apply lookup_insert_eq. }
    destruct_state s. cbn [set_innerHTML innerHTML].
    destruct (JS.forEach_items list); cbn [fst snd]; rewrite ?insert_insert_eq; reflexivity.
Qed.

(** Running on through the tests that depend on the data. *)
Ltac stuck_case :=
  match goal with
  | |- context [match ?x with _ => _ end] =>
      lazymatch x with
      | context [match _ with _ => _ end] => fail
      | _ => destruct x eqn:?
      end
  end.

Ltac crunch :=
  repeat (exec; rewrite ?render_list_or_placeholder_eq, ?render_list_eq; try stuck_case).

Ltac solve_sends :=
  unfold sends; cbn [sent];
  first [ symmetry; apply app_nil_r | rewrite <- ?app_assoc; reflexivity ].

Ltac solve_bears :=
  let q := fresh "q" in
  intros q; cbn [app]; rewrite ?elem_of_cons, elem_of_nil;
  intros ?; repeat match goal with H : _ \/ _ |- _ => destruct H end; try contradiction;
  subst; first [ right; eexists _, _; reflexivity
               | left; left; eexists _, _, _; reflexivity
               | left; right; eexists _, _; reflexivity ].

(** *** The view router *)

Lemma showPage_display (s : State) (pageId : string) :
  pageId ∈ pages ->
  display (run (showPage pageId) s)
  = (if String.eqb pageId "auth-container"
     then fun m => m else <["logout-button" := "block"]>)
      (<[pageId := "block"]>
         (<["logout-button" := "none"]>
            (<["admin-dashboard" := "none"]>
               (<["student-dashboard" := "none"]>
                  (<["auth-container" := "none"]> (display s)))))).
Proof.
  unfold pages. rewrite !elem_of_cons, elem_of_nil.
  intros [->|[->|[->|[]]]]; destruct_state s; exec; reflexivity.
Qed.

Lemma showPage_routed (s : State) (pageId : string) :
  pageId ∈ pages -> routed (run (showPage pageId) s) pageId.
Proof.
  intros Hin. unfold routed, displayed, hidden. rewrite (showPage_display s pageId Hin).
  assert (Hothers : forall p, p ∈ pages -> p <> pageId ->
            p = "auth-container" \/ p = "student-dashboard" \/ p = "admin-dashboard").
  { unfold pages. intros p. rewrite !elem_of_cons, elem_of_nil. tauto. }
  revert Hin Hothers. unfold pages. rewrite !elem_of_cons, elem_of_nil.
  intros [->|[->|[->|[]]]] Hothers; closed_tests.
  all: split; [by simplify_map_eq|].
  all: split; [intros p Hp Hne; destruct (Hothers p Hp Hne) as [-> | [-> | ->]];
               try congruence; by simplify_map_eq|].
  all: split; (split; [intros H; by simplify_map_eq | intros H; by simplify_map_eq]).
Qed.

(** *** Admin approval *)

(** C5.  With an empty return-date input [adminApprove] only shows the
    validation message: nothing is sent and nothing else changes.  With a
    date in the input, the approve call leaves with that date as
    [expected_return_date], and the handler suspends on it. *)
Theorem adminApprove_return_date (B : Browser) (s : State) (requestId : value)
    (returnDate : string) :
  (returnDate = EmptyString ->
   step B s (CallAdminApprove requestId (Some returnDate))
   = set_message (Some ("Please set a return date.", "error")) s)
  /\ (returnDate <> EmptyString ->
      let q := apiFetch_request B (token s)
                 ("/requests/" +:+ JS.ToString B requestId +:+ "/approve")
                 (POST_json (JS.obj [("expected_return_date", VStr returnDate)])) in
      step B s (CallAdminApprove requestId (Some returnDate))
      = set_sent (sent s ++ [q])
          (set_next_request (S (next_request s))
             (set_pending (<[next_request s := (q, KAdminApprove)]> (pending s)) s))).
Proof.
  split.
  - intros ->. reflexivity.
  - intros Hne. destruct_state s. app_unfold.
    destruct (String.eqb_spec returnDate EmptyString); [contradiction|reflexivity].
Qed.

Lemma adminApprove_return_date_witness :
  message (step Sample.utc Sample.fresh (CallAdminApprove (VNum 3) (Some EmptyString)))
  = Some ("Please set a return date.", "error")
  /\ sent (step Sample.utc Sample.fresh (CallAdminApprove (VNum 3) (Some EmptyString))) = []
  /\ sent (step Sample.utc Sample.fresh (CallAdminApprove (VNum 3) (Some "2026-02-03")))
     = [apiFetch_request Sample.utc VNull "/requests/3/approve"
          (POST_json (JS.obj [("expected_return_date", VStr "2026-02-03")]))].
Proof.
  destruct (adminApprove_return_date Sample.utc Sample.fresh (VNum 3) EmptyString) as [E _].
  destruct (adminApprove_return_date Sample.utc Sample.fresh (VNum 3) "2026-02-03") as [_ N].
  rewrite (E eq_refl), (N ltac:(discriminate)). repeat split.
Defined.

(** *** Reports *)

Lemma render_reports_eq (B : Browser) overdue repairs analytics s :
  snd (table B (overdue_row B) overdue) = Normal tt ->
  snd (table B (repair_row B) repairs) = Normal tt ->
  render_reports B overdue repairs analytics s
  = (set_innerHTML (report_tables B overdue repairs analytics (innerHTML s)) s,
     snd (table B (analytics_row B) analytics)).
Proof.
  intros Ho Hr. unfold render_reports, report_tables.
  unfold mbind at 1. unfold M_bind at 1. rewrite render_list_eq, Ho.
  unfold mbind at 1. unfold M_bind at 1. rewrite render_list_eq, Hr.
  rewrite render_list_eq. destruct_state s. reflexivity.
Qed.

Lemma render_reports_frame (B : Browser) overdue repairs analytics s :
  exists m r, render_reports B overdue repairs analytics s = (set_innerHTML m s, r).
Proof.
  unfold render_reports.
  unfold mbind at 1. unfold M_bind at 1. rewrite render_list_eq.
  destruct (snd (table B (overdue_row B) overdue)) as [[]|e].
  2:{ eauto. }
  unfold mbind at 1. unfold M_bind at 1. rewrite render_list_eq.
  destruct (snd (table B (repair_row B) repairs)) as [[]|e].
  2:{ destruct_state s. eexists _, _. reflexivity. }
  rewrite render_list_eq. destruct_state s. eexists _, _. reflexivity.
Qed.

Lemma loadAdminReports_then_frame (B : Browser) j which r s :
  exists m msg' jns',
    run (loadAdminReports_then B j which r) s
    = set_message msg' (set_joins jns' (set_innerHTML m s)).
Proof.
  destruct_state s. unfold run, loadAdminReports_then.
  unfold mbind at 1. unfold M_bind at 1. unfold get at 1. cbn [joins].
  destruct (jns !! j) as [slots|]; [|eexists _, _, _; exec; reflexivity].
  destruct r as [v|err]; [|eexists _, _, _; exec; reflexivity].
  destruct (fill which v slots) as [[[a|] [b|]] [c|]].
  2-8: eexists _, _, _; exec; reflexivity.
  unfold mbind at 1. unfold M_bind at 1. unfold modify at 1. unfold try_catch.
  match goal with
  | |- context [render_reports B ?o ?r ?a ?st] =>
      destruct (render_reports_frame B o r a st) as (m & res & ->)
  end.
  destruct res as [[]|err]; eexists _, _, _; exec; reflexivity.
Qed.

Lemma reports_then_settled (B : Browser) j which r s :
  joins s !! j = None -> run (loadAdminReports_then B j which r) s = s.
Proof. intros Hj. destruct_state s. exec. rewrite Hj. reflexivity. Qed.

Lemma reports_then_rejected (B : Browser) j which e s slots :
  joins s !! j = Some slots ->
  run (loadAdminReports_then B j which (Throw e)) s
  = set_message (Some (error_message B e, "error")) (set_joins (delete j (joins s)) s).
Proof. intros Hj. destruct_state s. exec. rewrite Hj. reflexivity. Qed.

Lemma reports_then_waiting (B : Browser) j which v s slots :
  joins s !! j = Some slots ->
  complete (fill which v slots) = false ->
  run (loadAdminReports_then B j which (Normal v)) s
  = set_joins (<[j := fill which v slots]> (joins s)) s.
Proof.
  intros Hj Hc. destruct_state s. exec. rewrite Hj.
  destruct (fill which v slots) as [[[a|] [b|]] [c|]]; try discriminate; reflexivity.
Qed.

Lemma reports_then_fulfilled (B : Browser) j which v s slots overdue repairs analytics :
  joins s !! j = Some slots ->
  fill which v slots = (Some overdue, Some repairs, Some analytics) ->
  snd (table B (overdue_row B) overdue) = Normal tt ->
  snd (table B (repair_row B) repairs) = Normal tt ->
  innerHTML (run (loadAdminReports_then B j which (Normal v)) s)
  = report_tables B overdue repairs analytics (innerHTML s).
Proof.
  intros Hj Hf Ho Hr. destruct_state s. unfold run, loadAdminReports_then.
  unfold mbind at 1. unfold M_bind at 1. unfold get at 1.
  cbn [joins]. rewrite Hj, Hf.
  unfold mbind at 1. unfold M_bind at 1. unfold modify at 1. unfold try_catch.
  rewrite render_reports_eq by assumption.
  destruct (table B (analytics_row B) analytics) as [markup [[]|e]]; reflexivity.
Qed.

Ltac solve_lookup :=
  cbn [pending joins set_pending set_joins set_message];
  repeat first [ rewrite lookup_delete_ne by lia | rewrite lookup_insert_ne by lia ];
  first [ apply lookup_insert_eq | apply lookup_delete_eq ].

Ltac state_norm :=
  cbv [token userRole localStorage display message active_tab
       pending joins next_request next_join sent
       set_token set_userRole set_localStorage set_display set_innerHTML set_message
       set_active_tab set_pending set_joins set_next_request set_next_join set_sent];
  cbn [innerHTML].

(** One delivery to the reports call, on a state in normal form. *)
Ltac reports_delivery H0 H1 H2 :=
  match goal with
  | |- context [step ?B ?s (Deliver ?i ?f)] =>
      lazymatch s with
      | context [step] => fail
      | _ =>
          erewrite (deliver_pending B s i _ _ f) by solve_lookup;
          cbn [resume]; rewrite ?H0, ?H1, ?H2;
          first [ erewrite reports_then_rejected by solve_lookup
                | erewrite reports_then_waiting by (first [solve_lookup | reflexivity])
                | rewrite reports_then_settled by solve_lookup ];
          state_norm; cbn [fill]
      end
  end.

Lemma loadAdminReports_run (B : Browser) (s : State) :
  run (loadAdminReports B) s
  = set_sent (sent s ++ List.map fst (refresh B (token s) (report_lists (next_join s))))
      (set_next_request (S (S (S (next_request s))))
         (set_pending (enqueue (refresh B (token s) (report_lists (next_join s)))
                         (next_request s) (pending s))
            (set_next_join (S (next_join s))
               (set_joins (<[next_join s := (None, None, None)]> (joins s)) s)))).
Proof. destruct_state s. exec. rewrite <- !app_assoc. reflexivity. Qed.

Lemma reports_run_failure (B : Browser) (s : State) (fr0 fr1 fr2 : fetch_result)
    (ds : list event) :
  ds ≡ₚ [Deliver (next_request s) fr0; Deliver (S (next_request s)) fr1;
         Deliver (S (S (next_request s))) fr2] ->
  (exists fr e, fr ∈ [fr0; fr1; fr2] /\ fst (apiFetch_settle B fr) = Throw e) ->
  innerHTML (fold_left (step B) ds (run (loadAdminReports B) s)) = innerHTML s.
Proof.
  intros Hperm Hfail. symmetry in Hperm. apply permutations_Permutation in Hperm.
  rewrite loadAdminReports_run.
  destruct (fst (apiFetch_settle B fr0)) as [v0|e0] eqn:H0;
  destruct (fst (apiFetch_settle B fr1)) as [v1|e1] eqn:H1;
  destruct (fst (apiFetch_settle B fr2)) as [v2|e2] eqn:H2.
  1:{ exfalso. destruct Hfail as (fr & e & Hin & He).
      rewrite !elem_of_cons, elem_of_nil in Hin.
      destruct Hin as [->|[->|[->|[]]]]; congruence. }
  all: clear Hfail; destruct_state s.
  all: cbn in Hperm; rewrite !elem_of_cons, elem_of_nil in Hperm.
  all: destruct Hperm as [->|[->|[->|[->|[->|[->|[]]]]]]]; cbn [fold_left].
  all: cbn [refresh report_lists List.map fst enqueue]; state_norm.
  all: repeat reports_delivery H0 H1 H2.
  all: reflexivity.
Qed.

Lemma reports_run_success (B : Browser) (s : State) (fr0 fr1 fr2 : fetch_result)
    (ds : list event) overdue repairs analytics :
  ds ≡ₚ [Deliver (next_request s) fr0; Deliver (S (next_request s)) fr1;
         Deliver (S (S (next_request s))) fr2] ->
  fst (apiFetch_settle B fr0) = Normal overdue ->
  fst (apiFetch_settle B fr1) = Normal repairs ->
  fst (apiFetch_settle B fr2) = Normal analytics ->
  snd (table B (overdue_row B) overdue) = Normal tt ->
  snd (table B (repair_row B) repairs) = Normal tt ->
  innerHTML (fold_left (step B) ds (run (loadAdminReports B) s))
  = report_tables B overdue repairs analytics (innerHTML s).
Proof.
  intros Hperm H0 H1 H2 Ho Hr. symmetry in Hperm. apply permutations_Permutation in Hperm.
  rewrite loadAdminReports_run. destruct_state s.
  cbn in Hperm; rewrite !elem_of_cons, elem_of_nil in Hperm.
  destruct Hperm as [->|[->|[->|[->|[->|[->|[]]]]]]]; cbn [fold_left].
  all: cbn [refresh report_lists List.map fst enqueue]; state_norm.
  all: do 2 reports_delivery H0 H1 H2.
  all: match goal with
       | |- context [step ?B ?s (Deliver ?i ?f)] =>
           erewrite (deliver_pending B s i _ _ f) by solve_lookup
       end.
  all: cbn [resume]; rewrite ?H0, ?H1, ?H2.
  all: erewrite reports_then_fulfilled; [reflexivity | solve_lookup | reflexivity | assumption..].
Qed.



(** C6.  [loadAdminReports] sends its three fetches before it suspends.
    In whatever order the three responses then arrive: if one of the
    fetches fails, no table is rendered, and if all three succeed the three
    tables are rendered.  Step by step, in any state: a failure renders
    nothing and settles the whole call, after which the other two render
    nothing either; a success that is not yet the third renders nothing;
    and the third success renders the three tables. *)
Theorem loadAdminReports_all_or_nothing (B : Browser) (s : State)
    (fr0 fr1 fr2 : fetch_result) (ds : list event) :
  (sends s (run (loadAdminReports B) s)
     (List.map fst (refresh B (token s) (report_lists (next_join s))))
   /\ pending (run (loadAdminReports B) s)
      = enqueue (refresh B (token s) (report_lists (next_join s)))
          (next_request s) (pending s)
   /\ joins (run (loadAdminReports B) s) !! next_join s = Some (None, None, None)
   /\ innerHTML (run (loadAdminReports B) s) = innerHTML s)
  /\ (ds ≡ₚ [Deliver (next_request s) fr0; Deliver (S (next_request s)) fr1;
             Deliver (S (S (next_request s))) fr2] ->
      ((exists fr e, fr ∈ [fr0; fr1; fr2] /\ fst (apiFetch_settle B fr) = Throw e) ->
       innerHTML (fold_left (step B) ds (run (loadAdminReports B) s)) = innerHTML s)
      /\ (forall overdue repairs analytics,
            fst (apiFetch_settle B fr0) = Normal overdue ->
            fst (apiFetch_settle B fr1) = Normal repairs ->
            fst (apiFetch_settle B fr2) = Normal analytics ->
            snd (table B (overdue_row B) overdue) = Normal tt ->
            snd (table B (repair_row B) repairs) = Normal tt ->
            innerHTML (fold_left (step B) ds (run (loadAdminReports B) s))
            = report_tables B overdue repairs analytics (innerHTML s)))
  /\ forall id q j which fr,
      pending s !! id = Some (q, KLoadAdminReports j which) ->
      (forall e, awaited B (KLoadAdminReports j which) fr = Throw e ->
         innerHTML (step B s (Deliver id fr)) = innerHTML s
         /\ joins (step B s (Deliver id fr)) !! j = None)
      /\ (joins s !! j = None ->
          innerHTML (step B s (Deliver id fr)) = innerHTML s
          /\ joins (step B s (Deliver id fr)) !! j = None)
      /\ (forall v slots,
            awaited B (KLoadAdminReports j which) fr = Normal v ->
            joins s !! j = Some slots ->
            complete (fill which v slots) = false ->
            innerHTML (step B s (Deliver id fr)) = innerHTML s
            /\ joins (step B s (Deliver id fr)) !! j = Some (fill which v slots))
      /\ (forall v slots overdue repairs analytics,
            awaited B (KLoadAdminReports j which) fr = Normal v ->
            joins s !! j = Some slots ->
            fill which v slots = (Some overdue, Some repairs, Some analytics) ->
            snd (table B (overdue_row B) overdue) = Normal tt ->
            snd (table B (repair_row B) repairs) = Normal tt ->
            innerHTML (step B s (Deliver id fr))
            = report_tables B overdue repairs analytics (innerHTML s)).
Proof.
  split; [|split].
  - rewrite loadAdminReports_run. unfold sends. destruct_state s.
    repeat split. apply lookup_insert_eq.
  - intros Hperm. split.
    + apply reports_run_failure. exact Hperm.
    + intros overdue repairs analytics. apply reports_run_success. exact Hperm.
  - intros id q j which fr Hp. rewrite (deliver_pending B s id q _ fr Hp). clear Hp.
    cbn [awaited resume]. split; [|split; [|split]].
    + intros e Ha. rewrite Ha. destruct (joins s !! j) as [slots|] eqn:Hj.
      * rewrite (reports_then_rejected B j which e _ slots) by exact Hj.
        destruct_state s. split; [reflexivity|apply lookup_delete_eq].
      * rewrite reports_then_settled by exact Hj. destruct_state s. auto.
    + intros Hj. rewrite reports_then_settled by exact Hj. destruct_state s. auto.
    + intros v slots Ha Hj Hc. rewrite Ha.
      rewrite (reports_then_waiting B j which v _ slots) by assumption.
      destruct_state s. split; [reflexivity|apply lookup_insert_eq].
    + intros v slots overdue repairs analytics Ha Hj Hf Ho Hr. rewrite Ha.
      rewrite (reports_then_fulfilled B j which v _ slots overdue repairs analytics)
        by assumption.
      destruct_state s. reflexivity.
Qed.

(** The repairs list answers 500, before the other two lists arrive: no
    table is rendered. *)
Lemma loadAdminReports_all_or_nothing_witness :
  innerHTML
    (fold_left (step Sample.utc)
       [Deliver 1 (Sample.reply 500 (JS.obj [("detail", VStr "boom")]));
        Deliver 0 (Sample.reply 200 (VArr []));
        Deliver 2 (Sample.reply 200 (VArr []))]
       (run (loadAdminReports Sample.utc) Sample.fresh))
  = innerHTML Sample.fresh.
Proof.
  destruct (loadAdminReports_all_or_nothing Sample.utc Sample.fresh
              (Sample.reply 200 (VArr []))
              (Sample.reply 500 (JS.obj [("detail", VStr "boom")]))
              (Sample.reply 200 (VArr []))
              [Deliver 1 (Sample.reply 500 (JS.obj [("detail", VStr "boom")]));
               Deliver 0 (Sample.reply 200 (VArr []));
               Deliver 2 (Sample.reply 200 (VArr []))]) as (_ & H & _).
  destruct (H (perm_swap _ _ _)) as [Hfail _].
  apply Hfail. exists (Sample.reply 500 (JS.obj [("detail", VStr "boom")])), (Error "boom").
  split; [|reflexivity].
  apply elem_of_cons. right. apply elem_of_cons. left. reflexivity.
Defined.

(** *** The credential *)

Ltac frame := let H := fresh in intros H; exfalso; apply H; reflexivity.
Ltac finish := split; [first [frame | eauto 10] | eexists; split; [solve_sends | solve_bears]].

(** C7 (as amended).  A step changes [token] only if it is the page load
    (which restores a saved credential), the logout action, or the arrival
    of the response awaited by the login handler or by the role lookup of
    [loadUserDashboard] (which clears the credential when it fails).  And
    every request a step sends is either one of the two unauthenticated
    form requests or was built by [apiFetch] from the credential as the
    step leaves it. *)
Theorem token_read_and_written (B : Browser) (s : State) (e : event) :
  (token (step B s e) <> token s ->
   e = Load \/ e = ClickLogout
   \/ exists id fr q, e = Deliver id fr
        /\ (pending s !! id = Some (q, KLogin)
            \/ pending s !! id = Some (q, KLoadUserDashboard)))
  /\ exists new, sends s (step B s e) new
       /\ forall q, q ∈ new -> unauthenticated q \/ bears B (token (step B s e)) q.
Proof.
  destruct e as [| | |username password role|username password| |tab
                |equipmentId now|requestId|equipmentId answer|requestId input
                |requestId|name category quantity|equipmentId confirmed| |repairId
                |id fr].
  - destruct_state s. exec.
    destruct (store !! "token") as [saved|]; [destruct (String.eqb saved EmptyString)|];
      exec; finish.
  - destruct_state s. exec. finish.
  - destruct_state s. exec. finish.
  - destruct_state s. exec. finish.
  - destruct_state s. exec. finish.
  - destruct_state s. exec. finish.
  - destruct_state s. unfold step, handle, tab_click.
    destruct (String.eqb tab "pending");
      [|destruct (String.eqb tab "equipment"); [|destruct (String.eqb tab "reports")]];
      exec; finish.
  - destruct_state s. unfold step, handle, requestItem.
    unfold mbind at 1. unfold M_bind at 1. unfold lift at 1.
    destruct (requestItem_dates B now) as [[borrowDate returnDate]|err]; exec; finish.
  - destruct_state s. exec. finish.
  - destruct_state s. unfold step, handle, reportDamage.
    destruct answer as [description|]; [destruct (String.eqb description EmptyString)|];
      exec; finish.
  - destruct_state s. unfold step, handle, adminApprove.
    destruct input as [returnDate|]; [destruct (String.eqb returnDate EmptyString)|];
      exec; finish.
  - destruct_state s. exec. finish.
  - destruct_state s. exec. finish.
  - destruct_state s. unfold step, handle, adminDeleteItem.
    destruct confirmed; exec; finish.
  - destruct_state s. exec. finish.
  - destruct_state s. exec. finish.
  - destruct (pending s !! id) as [[q k]|] eqn:Hp.
    2:{ rewrite (deliver_unknown B s id fr Hp). finish. }
    rewrite (deliver_pending B s id q k fr Hp).
    assert (Hlog : k = KLogin \/ k = KLoadUserDashboard ->
              Deliver id fr = Load \/ Deliver id fr = ClickLogout
              \/ exists id0 fr0 q0, Deliver id fr = Deliver id0 fr0
                   /\ (pending s !! id0 = Some (q0, KLogin)
                       \/ pending s !! id0 = Some (q0, KLoadUserDashboard))).
    { intros [->| ->]; right; right; exists id, fr, q; auto. }
    clear Hp.
    destruct k; cbn [resume].
    15: shelve.
    all: try (destruct (fst (apiFetch_settle B fr)) as [v|err]).
    all: destruct_state s.
    all: crunch; finish.
    Unshelve.
    destruct (loadAdminReports_then_frame B join which (fst (apiFetch_settle B fr))
                (set_pending (delete id (pending s)) s)) as (m & msg' & jns' & ->).
    destruct_state s. exec. finish.
Qed.

Lemma token_read_and_written_witness :
  token (step Sample.utc Sample.returning Load) <> token Sample.returning
  /\ (Load = Load \/ Load = ClickLogout
      \/ exists id fr q, Load = Deliver id fr
           /\ (pending Sample.returning !! id = Some (q, KLogin)
               \/ pending Sample.returning !! id = Some (q, KLoadUserDashboard))).
Proof.
  assert (H : token (step Sample.utc Sample.returning Load) <> token Sample.returning)
    by discriminate.
  split; [exact H|].
  exact (proj1 (token_read_and_written Sample.utc Sample.returning Load) H).
Defined.

(** C7, counterexample.  Neither login nor logout: loading the page with a
    saved credential writes [token], and so does the failure of the role
    lookup that follows. *)
Lemma token_written_by_init_and_role_lookup :
  token Sample.returning = VNull
  /\ token (step Sample.utc Sample.returning Load) = VStr "t1"
  /\ pending (step Sample.utc Sample.returning Load) !! 0%nat
     = Some (apiFetch_request Sample.utc (VStr "t1") "/users/me/" GET, KLoadUserDashboard)
  /\ token (step Sample.utc (step Sample.utc Sample.returning Load)
              (Deliver 0 (Sample.reply 401 Sample.bad_credentials))) = VNull.
Proof. repeat split. Qed.

(** *** The view router, continued *)

Ltac same_display := let H := fresh in intros H; exfalso; apply H; reflexivity.

(** Only the page load, the logout action and the role lookup touch the
    [display] of the page containers and of the logout button. *)
Lemma pages_switched_by (B : Browser) (s : State) (e : event) (p : string) :
  p ∈ "logout-button" :: pages ->
  display (step B s e) !! p <> display s !! p ->
  e = Load \/ e = ClickLogout
  \/ exists id fr q, e = Deliver id fr /\ pending s !! id = Some (q, KLoadUserDashboard).
Proof.
  intros Hin.
  assert (Hp : p <> "login-card" /\ p <> "register-card").
  { revert Hin. unfold pages. rewrite !elem_of_cons, elem_of_nil.
    intros [->|[->|[->|[->|[]]]]]; split; discriminate. }
  destruct Hp as [Hl Hr]. clear Hin.
  destruct e as [| | |username password role|username password| |tab
                |equipmentId now|requestId|equipmentId answer|requestId input
                |requestId|name category quantity|equipmentId confirmed| |repairId
                |id fr]; auto.
  - destruct_state s. exec. rewrite !lookup_insert_ne by congruence. same_display.
  - destruct_state s. exec. rewrite !lookup_insert_ne by congruence. same_display.
  - destruct_state s. exec. same_display.
  - destruct_state s. exec. same_display.
  - destruct_state s. unfold step, handle, tab_click.
    destruct (String.eqb tab "pending");
      [|destruct (String.eqb tab "equipment"); [|destruct (String.eqb tab "reports")]];
      exec; same_display.
  - destruct_state s. unfold step, handle, requestItem.
    unfold mbind at 1. unfold M_bind at 1. unfold lift at 1.
    destruct (requestItem_dates B now) as [[borrowDate returnDate]|err]; exec; same_display.
  - destruct_state s. exec. same_display.
  - destruct_state s. unfold step, handle, reportDamage.
    destruct answer as [description|]; [destruct (String.eqb description EmptyString)|];
      exec; same_display.
  - destruct_state s. unfold step, handle, adminApprove.
    destruct input as [returnDate|]; [destruct (String.eqb returnDate EmptyString)|];
      exec; same_display.
  - destruct_state s. exec. same_display.
  - destruct_state s. exec. same_display.
  - destruct_state s. unfold step, handle, adminDeleteItem.
    destruct confirmed; exec; same_display.
  - destruct_state s. exec. same_display.
  - destruct_state s. exec. same_display.
  - destruct (pending s !! id) as [[q k]|] eqn:Hp.
    2:{ rewrite (deliver_unknown B s id fr Hp). same_display. }
    rewrite (deliver_pending B s id q k fr Hp).
    destruct k; cbn [resume].
    3:{ intros _. right. right. eauto. }
    14:{ destruct (loadAdminReports_then_frame B join which (fst (apiFetch_settle B fr))
                (set_pending (delete id (pending s)) s)) as (m & msg' & jns' & ->).
         destruct_state s. same_display. }
    all: try (destruct (fst (apiFetch_settle B fr)) as [v|err]).
    all: destruct_state s.
    all: crunch; rewrite ?lookup_insert_ne by congruence; same_display.
Qed.

(** Whatever happens, the script either leaves the page containers and the
    logout button alone, or has just started on a fresh document, or has
    routed to one of the three pages. *)
Lemma router_step (B : Browser) (s : State) (e : event) :
  (forall p, p ∈ "logout-button" :: pages ->
             display (step B s e) !! p = display s !! p)
  \/ display (step B s e) = ∅
  \/ exists pageId, pageId ∈ pages /\ routed (step B s e) pageId.
Proof.
  assert (Hpage : forall p, p = "auth-container" \/ p = "student-dashboard"
                            \/ p = "admin-dashboard" -> p ∈ pages).
  { unfold pages. intros p. rewrite !elem_of_cons, elem_of_nil. tauto. }
  assert (Hshow : forall pageId st d,
            pageId ∈ pages ->
            display st = display (run (showPage pageId) (set_display d st)) ->
            routed st pageId).
  { intros pageId st d Hin Hd.
    pose proof (showPage_routed (set_display d st) pageId Hin) as Hr.
    unfold routed, displayed, hidden in *. rewrite Hd. exact Hr. }
  assert (Hkeep :
    (forall p, p ∈ "logout-button" :: pages ->
               ~ display (step B s e) !! p <> display s !! p) ->
    forall p, p ∈ "logout-button" :: pages ->
              display (step B s e) !! p = display s !! p).
  { intros H p Hin. destruct (decide (display (step B s e) !! p = display s !! p)) as [E|N];
      [exact E|]. destruct (H p Hin N). }
  destruct e as [| | |username password role|username password| |tab
                |equipmentId now|requestId|equipmentId answer|requestId input
                |requestId|name category quantity|equipmentId confirmed| |repairId
                |id fr].
  1:{ destruct_state s. exec.
      destruct (store !! "token") as [saved|]; [destruct (String.eqb saved EmptyString)|]; exec.
      2:{ right. left. reflexivity. }
      all: right; right; exists "auth-container"; (split; [apply Hpage; tauto|]).
      all: eapply (Hshow _ _ ∅); [apply Hpage; tauto|].
      all: exec; reflexivity. }
  5:{ right. right. exists "auth-container". split; [apply Hpage; tauto|].
      destruct_state s.
      eapply (Hshow _ _ disp); [apply Hpage; tauto|].
      exec. reflexivity. }
  15:{ destruct (pending s !! id) as [[q k]|] eqn:Hp.
       2:{ left. apply Hkeep. intros p Hin N.
           destruct (pages_switched_by B s _ p Hin N) as [?|[?|(? & ? & ? & [= <- <-] & ?)]];
             congruence. }
       assert (Hdec : k = KLoadUserDashboard \/ k <> KLoadUserDashboard)
         by (destruct k; first [left; reflexivity | right; discriminate]).
       destruct Hdec as [->|Hk].
       2:{ left. apply Hkeep. intros p Hin N.
           destruct (pages_switched_by B s _ p Hin N) as [?|[?|(? & ? & ? & [= <- <-] & ?)]];
             congruence. }
       right. right. rewrite (deliver_pending B s id q _ fr Hp). cbn [resume].
       destruct (fst (apiFetch_settle B fr)) as [user|err]; destruct_state s.
       - unfold loadUserDashboard_then, run, try_catch.
         unfold mbind at 1. unfold M_bind at 1. unfold lift at 1.
         unfold mbind at 1. unfold M_bind at 1. unfold lift at 1.
         destruct (JS.Get user "role") as [r|err].
         + destruct (JS.strict_eq_str r "admin").
           * exists "admin-dashboard". split; [apply Hpage; tauto|].
             eapply (Hshow _ _ disp); [apply Hpage; tauto|].
             exec. reflexivity.
           * exists "student-dashboard". split; [apply Hpage; tauto|].
             eapply (Hshow _ _ disp); [apply Hpage; tauto|].
             exec. reflexivity.
         + exists "auth-container". split; [apply Hpage; tauto|].
           eapply (Hshow _ _ disp); [apply Hpage; tauto|].
           exec. reflexivity.
       - exists "auth-container". split; [apply Hpage; tauto|].
         eapply (Hshow _ _ disp); [apply Hpage; tauto|].
         exec. reflexivity. }
  all: left; apply Hkeep; intros p Hin N;
    destruct (pages_switched_by B s _ p Hin N) as [?|[?|(? & ? & ? & ? & ?)]]; congruence.
Qed.

(** C8.  After [showPage] on one of the three page containers, that page
    is displayed and the other two are hidden, and the logout button is
    displayed exactly when the page is not the auth container (and hidden
    exactly when it is).  The script calls [showPage] on nothing else:
    each of its steps leaves the page containers and the logout button
    alone, or starts on a fresh document, or ends routed to a page. *)
Theorem showPage_exclusive (B : Browser) (s : State) (pageId : string) (e : event) :
  (pageId ∈ pages ->
   displayed (run (showPage pageId) s) pageId
   /\ (forall p, p ∈ pages -> p <> pageId -> hidden (run (showPage pageId) s) p)
   /\ (displayed (run (showPage pageId) s) "logout-button" <-> pageId <> "auth-container")
   /\ (hidden (run (showPage pageId) s) "logout-button" <-> pageId = "auth-container"))
  /\ ((forall p, p ∈ "logout-button" :: pages ->
                  display (step B s e) !! p = display s !! p)
      \/ display (step B s e) = ∅
      \/ exists page, page ∈ pages /\ routed (step B s e) page).
Proof.
  split.
  - intros Hin. pose proof (showPage_routed s pageId Hin) as H.
    unfold routed in H. exact H.
  - destruct (router_step B s e) as [Hsame|[Hfresh|Hrouted]].
    + left. exact Hsame.
    + right. left. exact Hfresh.
    + right. right. exact Hrouted.
Qed.

(** Logging in as a student leaves the student dashboard and the logout
    button displayed. *)
Lemma showPage_exclusive_witness :
  displayed (run (showPage "student-dashboard") Sample.fresh) "student-dashboard"
  /\ hidden (run (showPage "student-dashboard") Sample.fresh) "auth-container"
  /\ hidden (run (showPage "student-dashboard") Sample.fresh) "admin-dashboard"
  /\ displayed (run (showPage "student-dashboard") Sample.fresh) "logout-button".
Proof.
  assert (Hin : forall p, p = "auth-container" \/ p = "student-dashboard"
                          \/ p = "admin-dashboard" -> p ∈ pages).
  { unfold pages. intros p. rewrite !elem_of_cons, elem_of_nil. tauto. }
  destruct (proj1 (showPage_exclusive Sample.utc Sample.fresh "student-dashboard" Load)
              (Hin _ (or_intror (or_introl eq_refl))))
    as (H1 & H2 & H3 & _).
  split; [exact H1|]. split; [|split].
  - apply H2; [apply Hin; tauto | discriminate].
  - apply H2; [apply Hin; tauto | discriminate].
  - apply H3. discriminate.
Defined.

(** *** Errors *)

Lemma awaited_raw_cases (B : Browser) fr fallback (e : error) :
  ('(response, data) ← fetch_json fr;
   check_ok B response data fallback;; mret data) = Throw e ->
  fetch_json fr = Throw e
  \/ exists response data,
       fetch_json fr = Normal (response, data)
       /\ check_ok B response data fallback = Throw e.
Proof.
  unfold mbind, completion_bind.
  destruct (fetch_json fr) as [[response data]|e']; [|intros [= ->]; by left].
  destruct (check_ok B response data fallback) as [[]|e'] eqn:Hc; [discriminate|].
  intros [= ->]. right. eauto.
Qed.




(** *** Lists *)





(** After a successful check for overdue items the three report lists are
    fetched again, provided the response has a body to take [length] of. *)
Lemma checkOverdue_refetches (B : Browser) s id q fr data :
  pending s !! id = Some (q, KCheckOverdue) ->
  awaited B KCheckOverdue fr = Normal data ->
  data <> VNull -> data <> VUndefined ->
  sends s (step B s (Deliver id fr))
    (List.map fst (refresh B (token s) (report_lists (next_join s)))).
Proof.
  intros Hp Ha Hnull Hundef. rewrite (deliver_pending B s id q _ fr Hp).
  cbn [awaited resume] in *. rewrite Ha. unfold sends. destruct_state s.
  destruct data; try congruence; exec; rewrite <- ?app_assoc; reflexivity.
Qed.

(** *** The Request button *)



End AppFacts.
(** ** The session: logging in, the role lookup, logging out, reloading *)

Module SessionFacts.
Import Fetch App Terms Notions AppFacts.

Lemma page_cases (p : string) :
  p = "auth-container" \/ p = "student-dashboard" \/ p = "admin-dashboard" -> p ∈ pages.
Proof. unfold pages. rewrite !elem_of_cons, elem_of_nil. tauto. Qed.

(** A state whose [display] is what [showPage] leaves is routed. *)
Lemma routed_by_display (st s0 : State) (pageId : string) :
  pageId ∈ pages ->
  display st = display (run (showPage pageId) s0) ->
  routed st pageId.
Proof.
  intros Hin Hd. pose proof (showPage_routed s0 pageId Hin) as Hr.
  unfold routed, displayed, hidden in *. rewrite Hd. exact Hr.
Qed.

Ltac state_fields :=
  cbn [token userRole localStorage display innerHTML message active_tab
       pending joins next_request next_join sent
       set_token set_userRole set_localStorage set_display set_innerHTML set_message
       set_active_tab set_pending set_joins set_next_request set_next_join set_sent] in *.

(** *** The three ways in which the session handlers resume *)

Lemma awaited_login_cases (B : Browser) (fr : fetch_result) (data : value) :
  awaited B KLogin fr = Normal data ->
  exists response,
    fetch_json fr = Normal (response, data)
    /\ check_ok B response data "Failed to log in" = Normal tt.
Proof.
  cbn [awaited]. unfold mbind, completion_bind.
  destruct (fetch_json fr) as [[response data']|e']; [|discriminate].
  destruct (check_ok B response data' _) as [[]|e''] eqn:Hc; [|discriminate].
  intros [= ->]. eauto.
Qed.

Lemma login_then_success (B : Browser) (s : State) (fr : fetch_result)
    (data access_token : value) :
  awaited B KLogin fr = Normal data ->
  JS.Get data "access_token" = Normal access_token ->
  run (login_then B fr) s
  = set_sent (sent s ++ [role_lookup B access_token])
      (set_next_request (S (next_request s))
         (set_pending (<[next_request s := (role_lookup B access_token, KLoadUserDashboard)]>
                         (pending s))
            (set_localStorage (<["token" := JS.ToString B access_token]> (localStorage s))
               (set_token access_token s)))).
Proof.
  intros Ha Hg. destruct (awaited_login_cases B fr data Ha) as (response & Hf & Hc).
  destruct_state s. exec. rewrite Hf. exec. rewrite Hc. exec. rewrite Hg. reflexivity.
Qed.

Lemma loadUserDashboard_then_success (B : Browser) (s : State) (user role : value) :
  JS.Get user "role" = Normal role ->
  userRole (run (loadUserDashboard_then B (Normal user)) s) = role
  /\ routed (run (loadUserDashboard_then B (Normal user)) s) (dashboard_of role)
  /\ sent (run (loadUserDashboard_then B (Normal user)) s)
     = sent s ++ List.map fst (refresh B (token s) (dashboard_lists role (next_join s)))
  /\ pending (run (loadUserDashboard_then B (Normal user)) s)
     = enqueue (refresh B (token s) (dashboard_lists role (next_join s)))
         (next_request s) (pending s)
  /\ message (run (loadUserDashboard_then B (Normal user)) s)
     = Some ("Login successful!", "success")
  /\ token (run (loadUserDashboard_then B (Normal user)) s) = token s
  /\ localStorage (run (loadUserDashboard_then B (Normal user)) s) = localStorage s
  /\ innerHTML (run (loadUserDashboard_then B (Normal user)) s) = innerHTML s.
Proof.
  intros Hg. unfold dashboard_of, dashboard_lists.
  split; [|split; [|split; [|split; [|split; [|split; [|split]]]]]].
  2:{ destruct (JS.strict_eq_str role "admin") eqn:Hr.
      - apply (routed_by_display _ (set_userRole role s)); [apply page_cases; tauto|].
        destruct_state s. exec. rewrite Hg. exec. rewrite Hr. exec. reflexivity.
      - apply (routed_by_display _ (set_userRole role s)); [apply page_cases; tauto|].
        destruct_state s. exec. rewrite Hg. exec. rewrite Hr. exec. reflexivity. }
  all: destruct_state s; exec; rewrite Hg; exec;
    destruct (JS.strict_eq_str role "admin"); exec; rewrite <- ?app_assoc; reflexivity.
Qed.

(** The page load with a saved credential, and without one. *)
Lemma load_with_credential (B : Browser) (s : State) (saved : string) :
  localStorage s !! "token" = Some saved ->
  saved <> EmptyString ->
  step B s Load
  = set_sent (sent s ++ [role_lookup B (VStr saved)])
      (set_next_request (S (next_request s))
         (set_pending (<[next_request s := (role_lookup B (VStr saved), KLoadUserDashboard)]> ∅)
            (set_token (VStr saved) (boot s)))).
Proof.
  intros Hs Hne. destruct_state s. exec. rewrite Hs.
  destruct (String.eqb_spec saved EmptyString); [contradiction|]. reflexivity.
Qed.

Lemma load_without_credential (B : Browser) (s : State) :
  localStorage s !! "token" = None \/ localStorage s !! "token" = Some EmptyString ->
  step B s Load = run (showPage "auth-container") (boot s).
Proof. intros [Hs|Hs]; destruct_state s; exec; rewrite Hs; reflexivity. Qed.

Lemma logout_pending (B : Browser) (s : State) :
  pending (step B s ClickLogout) = pending s.
Proof. destruct_state s. reflexivity. Qed.

(** *** Logging in *)



(** *** The role lookup *)

(** X2.  When the role lookup succeeds, [userRole] becomes the [role] of
    the answer; the admin dashboard is shown for the role ["admin"] and the
    student dashboard for every other value, a missing role included; the
    lists of that dashboard are requested, each once, with the credential
    in force; and the success message is shown.  The credential itself is
    not touched. *)
Theorem role_decides_dashboard (B : Browser) (s : State) (id : nat) (q : request)
    (fr : fetch_result) (user role : value) :
  pending s !! id = Some (q, KLoadUserDashboard) ->
  awaited B KLoadUserDashboard fr = Normal user ->
  JS.Get user "role" = Normal role ->
  userRole (step B s (Deliver id fr)) = role
  /\ routed (step B s (Deliver id fr)) (dashboard_of role)
  /\ sends s (step B s (Deliver id fr))
       (List.map fst (refresh B (token s) (dashboard_lists role (next_join s))))
  /\ pending (step B s (Deliver id fr))
     = enqueue (refresh B (token s) (dashboard_lists role (next_join s)))
         (next_request s) (delete id (pending s))
  /\ message (step B s (Deliver id fr)) = Some ("Login successful!", "success")
  /\ token (step B s (Deliver id fr)) = token s
  /\ localStorage (step B s (Deliver id fr)) = localStorage s
  /\ (role <> VStr "admin" -> dashboard_of role = "student-dashboard").
Proof.
  intros Hp Ha Hg. rewrite (deliver_pending B s id q _ fr Hp). clear Hp.
  cbn [awaited resume] in *. rewrite Ha. unfold sends.
  destruct (loadUserDashboard_then_success B (set_pending (delete id (pending s)) s)
              user role Hg) as (H1 & H2 & H3 & H4 & H5 & H6 & H7 & _).
  destruct_state s. state_fields.
  repeat (split; [assumption|]).
  intros Hne. unfold dashboard_of. destruct role as [| | | |r| |]; try reflexivity.
  cbn [JS.strict_eq_str].
  destruct (String.eqb_spec r "admin"); [congruence|reflexivity].
Qed.

Lemma role_decides_dashboard_witness :
  routed (step Sample.utc (step Sample.utc Sample.returning Load)
            (Deliver 0 (Sample.reply 200 (JS.obj [("role", VStr "teacher")]))))
    "student-dashboard"
  /\ userRole (step Sample.utc (step Sample.utc Sample.returning Load)
                 (Deliver 0 (Sample.reply 200 (JS.obj [("role", VStr "teacher")]))))
     = VStr "teacher".
Proof.
  destruct (role_decides_dashboard Sample.utc (step Sample.utc Sample.returning Load) 0
              (role_lookup Sample.utc (VStr "t1"))
              (Sample.reply 200 (JS.obj [("role", VStr "teacher")]))
              (JS.obj [("role", VStr "teacher")]) (VStr "teacher")
              eq_refl eq_refl eq_refl) as (H1 & H2 & _).
  split; [exact H2 | exact H1].
Defined.

(** X3.  A role lookup that succeeds without a body to read [role] from
    (a 204, or a body [null]) ends like a failed one: the engine's error is
    shown, the credential is cleared in memory and in durable storage, and
    the login screen is shown.  Unlike the logout action, this leaves
    [userRole] as it was. *)
Theorem bodiless_role_answer_logs_out (B : Browser) (s : State) (id : nat)
    (q : request) (fr : fetch_result) :
  pending s !! id = Some (q, KLoadUserDashboard) ->
  awaited B KLoadUserDashboard fr = Normal VNull ->
  token (step B s (Deliver id fr)) = VNull
  /\ localStorage (step B s (Deliver id fr)) = delete "token" (localStorage s)
  /\ routed (step B s (Deliver id fr)) "auth-container"
  /\ message (step B s (Deliver id fr))
     = Some (TypeError_message B (ReadOfNull "role"), "error")
  /\ userRole (step B s (Deliver id fr)) = userRole s
  /\ sends s (step B s (Deliver id fr)) [].
Proof.
  intros Hp Ha. rewrite (deliver_pending B s id q _ fr Hp). clear Hp.
  cbn [awaited resume] in *. rewrite Ha. unfold sends.
  split; [|split; [|split; [|split; [|split]]]].
  3:{ apply (routed_by_display _ (set_pending (delete id (pending s)) s));
        [apply page_cases; tauto|].
      destruct_state s. exec. reflexivity. }
  all: destruct_state s; exec; rewrite ?app_nil_r; reflexivity.
Qed.

Lemma bodiless_role_answer_logs_out_witness :
  token (step Sample.utc (step Sample.utc Sample.returning Load)
           (Deliver 0 (Sample.reply 204 VNull))) = VNull
  /\ localStorage (step Sample.utc (step Sample.utc Sample.returning Load)
                     (Deliver 0 (Sample.reply 204 VNull))) !! "token" = None.
Proof.
  destruct (bodiless_role_answer_logs_out Sample.utc (step Sample.utc Sample.returning Load) 0
              (role_lookup Sample.utc (VStr "t1")) (Sample.reply 204 VNull)
              eq_refl eq_refl) as (H1 & H2 & _).
  split; [exact H1|]. rewrite H2. apply lookup_delete_eq.
Defined.

(** *** Logging out *)

(** X4.  The logout action clears [token] and [userRole], removes the
    saved credential, shows its message and the login screen, and sends
    nothing.  It does not touch the requests in flight nor the tables, and
    doing it again changes nothing. *)
Theorem logout_clears_session (B : Browser) (s : State) :
  token (step B s ClickLogout) = VNull
  /\ userRole (step B s ClickLogout) = VNull
  /\ localStorage (step B s ClickLogout) = delete "token" (localStorage s)
  /\ routed (step B s ClickLogout) "auth-container"
  /\ message (step B s ClickLogout) = Some ("You have been logged out.", "success")
  /\ sends s (step B s ClickLogout) []
  /\ pending (step B s ClickLogout) = pending s
  /\ innerHTML (step B s ClickLogout) = innerHTML s
  /\ step B (step B s ClickLogout) ClickLogout = step B s ClickLogout.
Proof.
  unfold sends.
  split; [|split; [|split; [|split; [|split; [|split; [|split; [|split]]]]]]].
  4:{ apply (routed_by_display _ s); [apply page_cases; tauto|].
      destruct_state s. exec. reflexivity. }
  1-7: destruct_state s; exec; rewrite ?app_nil_r; reflexivity.
  destruct_state s. exec. f_equal.
  - apply map_eq. intros k. destruct (decide (k = "token")) as [->|Hk].
    + rewrite !lookup_delete_eq. reflexivity.
    + rewrite !lookup_delete_ne by congruence. reflexivity.
  - apply map_eq. intros k.
    destruct (decide (k = "auth-container")) as [->|H1]; [by simplify_map_eq|].
    destruct (decide (k = "logout-button")) as [->|H2]; [by simplify_map_eq|].
    destruct (decide (k = "admin-dashboard")) as [->|H3]; [by simplify_map_eq|].
    destruct (decide (k = "student-dashboard")) as [->|H4]; [by simplify_map_eq|].
    by simplify_map_eq.
Qed.

(** X5.  Logging out does not cancel the role lookup in flight.  When its
    answer arrives after the logout, the dashboard of the role is shown
    all the same, although no credential is held, and the lists of the
    dashboard are requested with the credential [null]. *)
Theorem role_answer_after_logout_shows_dashboard (B : Browser) (s : State) (id : nat)
    (q : request) (fr : fetch_result) (user role : value) :
  pending s !! id = Some (q, KLoadUserDashboard) ->
  awaited B KLoadUserDashboard fr = Normal user ->
  JS.Get user "role" = Normal role ->
  routed (step B s ClickLogout) "auth-container"
  /\ routed (step B (step B s ClickLogout) (Deliver id fr)) (dashboard_of role)
  /\ token (step B (step B s ClickLogout) (Deliver id fr)) = VNull
  /\ localStorage (step B (step B s ClickLogout) (Deliver id fr)) !! "token" = None
  /\ sends (step B s ClickLogout) (step B (step B s ClickLogout) (Deliver id fr))
       (List.map fst (refresh B VNull (dashboard_lists role (next_join s)))).
Proof.
  intros Hp Ha Hg.
  split.
  { apply (routed_by_display _ s); [apply page_cases; tauto|].
    destruct_state s. exec. reflexivity. }
  rewrite <- (logout_pending B s) in Hp.
  rewrite (deliver_pending B _ id q _ fr Hp). clear Hp.
  cbn [awaited resume] in *. rewrite Ha. unfold sends.
  destruct (loadUserDashboard_then_success B
              (set_pending (delete id (pending (step B s ClickLogout))) (step B s ClickLogout))
              user role Hg) as (_ & H2 & H3 & _ & _ & H6 & H7 & _).
  split; [exact H2|]. rewrite H3, H6, H7. destruct_state s.
  split; [reflexivity|]. split; [apply lookup_delete_eq|reflexivity].
Qed.

(** The saved credential is looked up at page load; the user logs out
    before the answer arrives. *)
Lemma role_answer_after_logout_shows_dashboard_witness :
  displayed (Sample.run_events Sample.utc Sample.returning
               [Load; ClickLogout; Deliver 0 (Sample.reply 200 (JS.obj [("role", VStr "admin")]))])
    "admin-dashboard"
  /\ token (Sample.run_events Sample.utc Sample.returning
              [Load; ClickLogout; Deliver 0 (Sample.reply 200 (JS.obj [("role", VStr "admin")]))])
     = VNull.
Proof.
  destruct (role_answer_after_logout_shows_dashboard Sample.utc
              (step Sample.utc Sample.returning Load) 0
              (role_lookup Sample.utc (VStr "t1"))
              (Sample.reply 200 (JS.obj [("role", VStr "admin")]))
              (JS.obj [("role", VStr "admin")]) (VStr "admin")
              eq_refl eq_refl eq_refl) as (_ & H2 & H3 & _).
  split; [exact (proj1 H2) | exact H3].
Defined.

(** *** Loading the page *)

(** X6.  At page load a saved credential that is not the empty string
    becomes [token], and the role lookup is sent with it; no page is shown
    until the answer arrives.  Without a saved credential, or with an empty
    one, the login screen is shown and nothing is sent.  Durable storage is
    left as it is. *)
Theorem init_restores_saved_credential (B : Browser) (s : State) :
  (forall saved, localStorage s !! "token" = Some saved -> saved <> EmptyString ->
     token (step B s Load) = VStr saved
     /\ sends s (step B s Load) [role_lookup B (VStr saved)]
     /\ pending (step B s Load)
        = <[next_request s := (role_lookup B (VStr saved), KLoadUserDashboard)]> ∅
     /\ display (step B s Load) = ∅)
  /\ (localStorage s !! "token" = None \/ localStorage s !! "token" = Some EmptyString ->
      token (step B s Load) = VNull
      /\ sends s (step B s Load) []
      /\ pending (step B s Load) = ∅
      /\ routed (step B s Load) "auth-container")
  /\ localStorage (step B s Load) = localStorage s
  /\ userRole (step B s Load) = VNull.
Proof.
  unfold sends. split; [|split; [|split]].
  - intros saved Hs Hne. rewrite (load_with_credential B s saved Hs Hne).
    destruct_state s. repeat split.
  - intros Hs. rewrite (load_without_credential B s Hs).
    split; [|split; [|split]].
    4:{ apply (routed_by_display _ (boot s)); [apply page_cases; tauto|reflexivity]. }
    all: destruct_state s; exec; rewrite ?app_nil_r; reflexivity.
  - destruct_state s. exec.
    destruct (store !! "token") as [saved|]; [destruct (String.eqb saved EmptyString)|];
      reflexivity.
  - destruct_state s. exec.
    destruct (store !! "token") as [saved|]; [destruct (String.eqb saved EmptyString)|];
      reflexivity.
Qed.

(** X7.  A credential saved by the login handler survives a reload of the
    page: provided its string form is not empty, the reloaded page holds
    that string as [token] and sends the same role lookup, header for
    header, as the login handler did.  A credential whose string form is
    empty is not restored: the reloaded page shows the login screen. *)
Theorem saved_credential_survives_reload (B : Browser) (s : State) (id : nat)
    (q : request) (fr : fetch_result) (data access_token : value) :
  pending s !! id = Some (q, KLogin) ->
  awaited B KLogin fr = Normal data ->
  JS.Get data "access_token" = Normal access_token ->
  (JS.ToString B access_token <> EmptyString ->
   token (step B (step B s (Deliver id fr)) Load) = VStr (JS.ToString B access_token)
   /\ sends s (step B s (Deliver id fr)) [role_lookup B access_token]
   /\ sends (step B s (Deliver id fr)) (step B (step B s (Deliver id fr)) Load)
        [role_lookup B access_token])
  /\ (JS.ToString B access_token = EmptyString ->
      token (step B (step B s (Deliver id fr)) Load) = VNull
      /\ routed (step B (step B s (Deliver id fr)) Load) "auth-container"
      /\ sends (step B s (Deliver id fr)) (step B (step B s (Deliver id fr)) Load) []).
Proof.
  intros Hp Ha Hg. rewrite (deliver_pending B s id q _ fr Hp). clear Hp. cbn [resume].
  rewrite (login_then_success B _ fr data access_token Ha Hg). unfold sends. split.
  - intros Hne.
    rewrite (load_with_credential B _ (JS.ToString B access_token)).
    + destruct_state s. repeat split.
    + destruct_state s. apply lookup_insert_eq.
    + exact Hne.
  - intros He. rewrite load_without_credential.
    2:{ right. destruct_state s. rewrite He. apply lookup_insert_eq. }
    split; [|split].
    2:{ eapply routed_by_display; [apply page_cases; tauto|reflexivity]. }
    all: destruct_state s; exec; rewrite ?app_nil_r; reflexivity.
Qed.

Lemma saved_credential_survives_reload_witness :
  token (Sample.run_events Sample.utc Sample.fresh
           [SubmitLogin "ann" "secret";
            Deliver 0 (Sample.reply 200 (JS.obj [("access_token", VNum 42)]));
            Load])
  = VStr "42".
Proof.
  destruct (saved_credential_survives_reload Sample.utc
              (step Sample.utc Sample.fresh (SubmitLogin "ann" "secret")) 0
              (token_request "ann" "secret")
              (Sample.reply 200 (JS.obj [("access_token", VNum 42)]))
              (JS.obj [("access_token", VNum 42)]) (VNum 42)
              eq_refl eq_refl eq_refl) as [H _].
  refine (proj1 (H _)). vm_compute. discriminate.
Defined.

End SessionFacts.
(** ** What every step preserves *)

Module StepFacts.
Import Fetch App Terms Notions AppFacts.

(** Case analysis over the events and, for a delivery, over the function
    that resumes, down to the point where the handler has run; [leaf]
    closes each case. *)
Ltac handler_case s leaf :=
  destruct_state s; unfold step, handle; try unfold requestItem; crunch; leaf.

Ltac reports_frame_case B s leaf :=
  lazymatch goal with
  | |- context [run (loadAdminReports_then B ?j ?w ?r) ?st] =>
      let m := fresh "m" in
      let msg' := fresh "msg'" in
      let jns' := fresh "jns'" in
      destruct (loadAdminReports_then_frame B j w r st) as (m & msg' & jns' & ->);
      destruct_state s; exec; leaf
  end.

Ltac delivery_case B s leaf reports :=
  lazymatch goal with
  | |- context [step B s (Deliver ?id ?fr)] =>
      let q := fresh "q" in
      let k := fresh "k" in
      let Hp := fresh "Hp" in
      destruct (pending s !! id) as [[q k]|] eqn:Hp;
      [ rewrite (deliver_pending B s id q k fr Hp);
        destruct k; cbn [resume];
        lazymatch goal with
        | |- context [loadAdminReports_then] => reports
        | |- _ =>
            try (destruct (fst (apiFetch_settle B fr)) as [v|err]);
            destruct_state s; crunch; leaf
        end
      | rewrite (deliver_unknown B s id fr Hp); leaf ]
  end.

Ltac step_cases_with B s e leaf reports :=
  destruct e;
  [ handler_case s leaf | handler_case s leaf | handler_case s leaf | handler_case s leaf
  | handler_case s leaf | handler_case s leaf | handler_case s leaf | handler_case s leaf
  | handler_case s leaf | handler_case s leaf | handler_case s leaf | handler_case s leaf
  | handler_case s leaf | handler_case s leaf | handler_case s leaf | handler_case s leaf
  | delivery_case B s leaf reports ].

Ltac step_cases B s e leaf :=
  step_cases_with B s e leaf ltac:(idtac; reports_frame_case B s leaf).

Ltac storage_leaf :=
  first [ reflexivity
        | apply delete_insert_eq
        | apply map_eq; let key := fresh "key" in
          intros key; destruct (decide (key = "token")) as [->|];
          [rewrite !lookup_delete_eq|rewrite !lookup_delete_ne by congruence];
          reflexivity ].

(** X8.  Durable storage is used for the credential alone: whatever
    happens, every entry other than [token] stays as it is. *)
Theorem storage_holds_only_the_credential (B : Browser) (s : State) (e : event) :
  delete "token" (localStorage (step B s e)) = delete "token" (localStorage s).
Proof. step_cases B s e storage_leaf. Qed.


Ltac sync_leaf H :=
  cbn [JS.ToString];
  first [ exact H
        | let Hn := fresh in intros Hn; exfalso; apply Hn; reflexivity
        | intros _; first [ apply lookup_insert_eq | assumption ] ].

(** X9.  Whenever a credential is held in memory, durable storage holds
    its string form under [token]: the page load establishes this, and
    every step keeps it. *)
Theorem credential_in_memory_is_saved (B : Browser) (s : State) (e : event) :
  in_sync B (step B s Load)
  /\ (in_sync B s -> in_sync B (step B s e)).
Proof.
  unfold in_sync. split.
  - handler_case s ltac:(sync_leaf I).
  - intros H. step_cases B s e ltac:(sync_leaf H).
Qed.

Lemma credential_in_memory_is_saved_witness :
  in_sync Sample.utc Sample.student_home
  /\ in_sync Sample.utc (step Sample.utc Sample.student_home ClickLogout).
Proof.
  assert (H : in_sync Sample.utc Sample.student_home) by (intros _; reflexivity).
  split; [exact H|].
  exact (proj2 (credential_in_memory_is_saved Sample.utc Sample.student_home ClickLogout) H).
Defined.

Ltac unchanged := let H := fresh in intros H; exfalso; apply H; reflexivity.

(** X10.  [userRole] is written by the page load, by the logout action and
    by the role lookup when its answer arrives, and by nothing else. *)
Theorem userRole_written_by (B : Browser) (s : State) (e : event) :
  userRole (step B s e) <> userRole s ->
  e = Load \/ e = ClickLogout
  \/ exists id fr q, e = Deliver id fr /\ pending s !! id = Some (q, KLoadUserDashboard).
Proof.
  step_cases B s e ltac:(first [ unchanged | intros _; eauto 10 ]).
Qed.

Lemma userRole_written_by_witness :
  userRole (step Sample.utc Sample.student_home ClickLogout) <> userRole Sample.student_home
  /\ (ClickLogout = Load \/ ClickLogout = ClickLogout
      \/ exists id fr q, ClickLogout = Deliver id fr
           /\ pending Sample.student_home !! id = Some (q, KLoadUserDashboard)).
Proof.
  assert (H : userRole (step Sample.utc Sample.student_home ClickLogout)
              <> userRole Sample.student_home) by discriminate.
  split; [exact H|].
  exact (userRole_written_by Sample.utc Sample.student_home ClickLogout H).
Defined.


(** *** Requests *)

Ltac consistent_one :=
  unfold consistent, header, register_request, token_request, apiFetch_request,
    GET, POST, DELETE, POST_json;
  cbn [headers payload method opt_method opt_body List.find fst snd fmap option_fmap
       option_map content_type_of default from_option id];
  closed_tests; cbn [List.find fst snd fmap option_fmap option_map];
  split; [reflexivity|split];
  [ rewrite !elem_of_cons; tauto
  | first [ reflexivity | intros; reflexivity | unchanged ] ].

Ltac solve_consistent :=
  repeat (apply List.Forall_cons; [consistent_one|]); apply List.Forall_nil.

(** X11.  Every request the script sends is consistent: it carries the
    [Content-Type] that describes its payload (and none when it has no
    payload), its method is [GET], [POST] or [DELETE], and only a [POST]
    has a payload. *)
Theorem requests_are_consistent (B : Browser) (s : State) (e : event) :
  exists new, sends s (step B s e) new /\ Forall consistent new.
Proof.
  step_cases B s e ltac:(eexists; split; [solve_sends | solve_consistent]).
Qed.


(** *** The document *)

Ltac cards_leaf :=
  unfold login_shown, register_shown, displayed, hidden; cbn [display];
  first [ left; split; by simplify_map_eq
        | right; left; split; by simplify_map_eq
        | right; right; left; split; by simplify_map_eq
        | right; right; right; split; by simplify_map_eq ].

Ltac card_switch_leaf :=
  let card := fresh "card" in
  let Hin := fresh "Hin" in
  intros card Hin; rewrite !elem_of_cons, elem_of_nil in Hin;
  destruct Hin as [-> | [-> | []]];
  rewrite ?lookup_insert_ne by discriminate;
  first [ unchanged | intros _; eauto 10 ].

(** X12.  The login card and the register card are switched together: a
    step leaves the [display] of both alone, or starts on a fresh
    document, or leaves exactly one of the two displayed and the other
    hidden.  They are switched by the two links and by a registration that
    has been answered, and by nothing else short of a page load. *)
Theorem auth_cards_switch_together (B : Browser) (s : State) (e : event) :
  ((display (step B s e) !! "login-card" = display s !! "login-card"
    /\ display (step B s e) !! "register-card" = display s !! "register-card")
   \/ (display (step B s e) !! "login-card" = None
       /\ display (step B s e) !! "register-card" = None)
   \/ login_shown (step B s e)
   \/ register_shown (step B s e))
  /\ (forall card, card ∈ ["login-card"; "register-card"] ->
        display (step B s e) !! card <> display s !! card ->
        e = Load \/ e = ClickShowRegister \/ e = ClickShowLogin
        \/ exists id fr q, e = Deliver id fr /\ pending s !! id = Some (q, KRegister)).
Proof.
  split.
  - step_cases B s e cards_leaf.
  - step_cases B s e card_switch_leaf.
Qed.

(** The three report tables are all that [loadAdminReports] writes. *)
Lemma render_reports_writes (B : Browser) overdue repairs analytics s el :
  el ∉ report_tbodies ->
  innerHTML (fst (render_reports B overdue repairs analytics s)) !! el = innerHTML s !! el.
Proof.
  unfold report_tbodies. rewrite !not_elem_of_cons. intros (H1 & H2 & H3 & _).
  unfold render_reports.
  unfold mbind at 1. unfold M_bind at 1. rewrite render_list_eq.
  destruct (snd (table B (overdue_row B) overdue)) as [[]|e].
  2:{ destruct_state s. cbn [fst set_innerHTML innerHTML].
      rewrite lookup_insert_ne by congruence. reflexivity. }
  unfold mbind at 1. unfold M_bind at 1. rewrite render_list_eq.
  destruct (snd (table B (repair_row B) repairs)) as [[]|e].
  2:{ destruct_state s. cbn [fst set_innerHTML innerHTML].
      rewrite !lookup_insert_ne by congruence. reflexivity. }
  rewrite render_list_eq. destruct_state s. cbn [fst set_innerHTML innerHTML].
  rewrite !lookup_insert_ne by congruence. reflexivity.
Qed.

Lemma loadAdminReports_then_writes (B : Browser) j which r s el :
  el ∉ report_tbodies ->
  innerHTML (run (loadAdminReports_then B j which r) s) !! el = innerHTML s !! el.
Proof.
  intros Hel. destruct_state s. unfold run, loadAdminReports_then.
  unfold mbind at 1. unfold M_bind at 1. unfold get at 1. cbn [joins].
  destruct (jns !! j) as [slots|]; [|reflexivity].
  destruct r as [v|err]; [|reflexivity].
  destruct (fill which v slots) as [[[a|] [b|]] [c|]].
  2-8: reflexivity.
  unfold mbind at 1. unfold M_bind at 1. unfold modify at 1. unfold try_catch.
  match goal with
  | |- context [render_reports B ?o ?r ?a ?st] =>
      pose proof (render_reports_writes B o r a st el Hel) as Hw;
      destruct (render_reports B o r a st) as [st' [[]|err]]
  end; cbn [fst] in *; [exact Hw|].
  destruct st'. exact Hw.
Qed.

Ltac table_leaf el :=
  first [ unchanged
        | intros _; left; reflexivity
        | let Hne := fresh "Hne" in
          intros Hne; right; eexists _, _, _, _;
          split; [reflexivity|]; split; [eassumption|];
          cbn [writes]; apply list_elem_of_singleton;
          match type of Hne with
          | <[?tb := _]> _ !! _ <> _ =>
              destruct (decide (el = tb)) as [->|];
              [ reflexivity
              | exfalso; apply Hne; apply lookup_insert_ne; congruence ]
          end ].

(** X13.  Markup is written into the table bodies alone, and into each
    only by the list view it belongs to: short of a page load, the
    [innerHTML] of an element changes only when a response is delivered to
    a function that owns that element. *)
Theorem tables_written_by_their_lists (B : Browser) (s : State) (e : event)
    (el : string) :
  innerHTML (step B s e) !! el <> innerHTML s !! el ->
  e = Load
  \/ exists id fr q k,
       e = Deliver id fr /\ pending s !! id = Some (q, k) /\ el ∈ writes k.
Proof.
  step_cases_with B s e ltac:(table_leaf el)
    ltac:(destruct (decide (el ∈ report_tbodies)) as [Hin|Hout];
          [ intros _; right; eexists _, _, _, _;
            split; [reflexivity|]; split; [eassumption|exact Hin]
          | rewrite (loadAdminReports_then_writes B _ _ _ _ el Hout);
            destruct_state s; unchanged ]).
Qed.

Lemma tables_written_by_their_lists_witness :
  innerHTML (step Sample.utc Sample.student_home (Deliver 2 (Sample.reply 200 (VArr []))))
    !! "equipment-list-tbody"
  <> innerHTML Sample.student_home !! "equipment-list-tbody"
  /\ (Deliver 2 (Sample.reply 200 (VArr [])) = Load
      \/ exists id fr q k,
           Deliver 2 (Sample.reply 200 (VArr [])) = Deliver id fr
           /\ pending Sample.student_home !! id = Some (q, k)
           /\ "equipment-list-tbody" ∈ writes k).
Proof.
  assert (H : innerHTML (step Sample.utc Sample.student_home
                           (Deliver 2 (Sample.reply 200 (VArr []))))
                !! "equipment-list-tbody"
              <> innerHTML Sample.student_home !! "equipment-list-tbody")
    by (vm_compute; discriminate).
  split; [exact H|].
  exact (tables_written_by_their_lists Sample.utc Sample.student_home _ _ H).
Defined.

End StepFacts.
(** ** The actions *)

Module ActionFacts.
Import Fetch App Terms Notions AppFacts.

(** X14.  The two actions that ask the user first do nothing at all when
    the user declines: [reportDamage] when the prompt is dismissed or left
    empty, [adminDeleteItem] when the confirmation is refused.  Otherwise
    each sends its one request and suspends on it. *)
Theorem declined_dialog_does_nothing (B : Browser) (s : State) (equipmentId : value) :
  step B s (CallReportDamage equipmentId None) = s
  /\ step B s (CallReportDamage equipmentId (Some EmptyString)) = s
  /\ step B s (CallAdminDeleteItem equipmentId false) = s
  /\ (forall description, description <> EmptyString ->
        step B s (CallReportDamage equipmentId (Some description))
        = suspended s
            (apiFetch_request B (token s)
               ("/equipment/" +:+ JS.ToString B equipmentId +:+ "/report-damage")
               (POST_json (JS.obj [("equipment_id", equipmentId);
                                   ("description", VStr description)])))
            KReportDamage)
  /\ step B s (CallAdminDeleteItem equipmentId true)
     = suspended s
         (apiFetch_request B (token s) ("/equipment/" +:+ JS.ToString B equipmentId) DELETE)
         KAdminDeleteItem.
Proof.
  destruct_state s. repeat split.
  intros description Hne. unfold step, handle, reportDamage.
  destruct (String.eqb_spec description EmptyString); [contradiction|reflexivity].
Qed.

(** X15.  A click on an admin tab marks the tab and requests the lists
    behind it: the pending requests, the inventory, or the three reports
    together; a tab of any other name requests nothing.  Until an answer
    arrives the pages, the tables, the message and the session stay as
    they were. *)
Theorem tab_click_requests_its_lists (B : Browser) (s : State) (tab : string) :
  active_tab (step B s (ClickTab tab)) = Some tab
  /\ sends s (step B s (ClickTab tab))
       (List.map fst (refresh B (token s) (tab_lists tab (next_join s))))
  /\ pending (step B s (ClickTab tab))
     = enqueue (refresh B (token s) (tab_lists tab (next_join s)))
         (next_request s) (pending s)
  /\ same_session s (step B s (ClickTab tab))
  /\ display (step B s (ClickTab tab)) = display s
  /\ innerHTML (step B s (ClickTab tab)) = innerHTML s
  /\ message (step B s (ClickTab tab)) = message s.
Proof.
  unfold sends, same_session, tab_lists. destruct_state s. unfold step, handle, tab_click.
  destruct (String.eqb tab "pending");
    [|destruct (String.eqb tab "equipment"); [|destruct (String.eqb tab "reports")]];
    exec; rewrite <- ?app_assoc, ?app_nil_r; repeat split.
Qed.

Lemma awaited_register_cases (B : Browser) (fr : fetch_result) (data : value) :
  awaited B KRegister fr = Normal data ->
  exists response,
    fetch_json fr = Normal (response, data)
    /\ check_ok B response data "Failed to register" = Normal tt.
Proof.
  cbn [awaited]. unfold mbind, completion_bind.
  destruct (fetch_json fr) as [[response data']|e']; [|discriminate].
  destruct (check_ok B response data' _) as [[]|e''] eqn:Hc; [|discriminate].
  intros [= ->]. eauto.
Qed.

(** X16.  A registration that succeeds shows its message and switches the
    auth page back to the login card.  It does not log the user in: the
    session stays as it was and nothing is sent. *)
Theorem registration_returns_to_login (B : Browser) (s : State) (id : nat)
    (q : request) (fr : fetch_result) (data : value) :
  pending s !! id = Some (q, KRegister) ->
  awaited B KRegister fr = Normal data ->
  message (step B s (Deliver id fr))
  = Some ("Registration successful! Please log in.", "success")
  /\ login_shown (step B s (Deliver id fr))
  /\ same_session s (step B s (Deliver id fr))
  /\ sends s (step B s (Deliver id fr)) []
  /\ pending (step B s (Deliver id fr)) = delete id (pending s)
  /\ forall p, p ∈ "logout-button" :: pages ->
       display (step B s (Deliver id fr)) !! p = display s !! p.
Proof.
  intros Hp Ha. rewrite (deliver_pending B s id q _ fr Hp). clear Hp. cbn [resume].
  destruct (awaited_register_cases B fr data Ha) as (response & Hf & Hc).
  unfold login_shown, displayed, hidden, same_session, sends.
  destruct_state s. exec. rewrite Hf. exec. rewrite Hc. exec. rewrite app_nil_r.
  repeat split; try by simplify_map_eq.
  intros p. unfold pages. rewrite !elem_of_cons, elem_of_nil.
  intros [-> | [-> | [-> | [-> | []]]]]; by simplify_map_eq.
Qed.

Lemma registration_returns_to_login_witness :
  login_shown (Sample.run_events Sample.utc Sample.fresh
                 [ClickShowRegister; SubmitRegister "ann" "secret" "student";
                  Deliver 0 (Sample.reply 200 (JS.obj [("username", VStr "ann")]))])
  /\ token (Sample.run_events Sample.utc Sample.fresh
              [ClickShowRegister; SubmitRegister "ann" "secret" "student";
               Deliver 0 (Sample.reply 200 (JS.obj [("username", VStr "ann")]))])
     = VNull.
Proof.
  destruct (registration_returns_to_login Sample.utc
              (Sample.run_events Sample.utc Sample.fresh
                 [ClickShowRegister; SubmitRegister "ann" "secret" "student"]) 0
              (register_request "ann" "secret" "student")
              (Sample.reply 200 (JS.obj [("username", VStr "ann")]))
              (JS.obj [("username", VStr "ann")]) eq_refl eq_refl)
    as (_ & H2 & H3 & _).
  split; [exact H2 | exact (proj1 H3)].
Defined.

(** X17.  When the check for overdue items succeeds, the message counts
    the items by the [length] of the answer and the three reports are
    requested again.  An answer without [length] (an object) is reported
    as ["undefined item(s)"]; an answer without a body (a 204) shows the
    engine's error instead, and then the reports are not requested. *)
Theorem checkOverdue_counts_by_length (B : Browser) (s : State) (id : nat)
    (q : request) (fr : fetch_result) (data : value) :
  pending s !! id = Some (q, KCheckOverdue) ->
  awaited B KCheckOverdue fr = Normal data ->
  (forall len, JS.Get data "length" = Normal len ->
     message (step B s (Deliver id fr))
     = Some (JS.ToString B len +:+ " item(s) marked as overdue.", "success")
     /\ sends s (step B s (Deliver id fr))
          (List.map fst (refresh B (token s) (report_lists (next_join s)))))
  /\ (forall items, data = VArr items ->
        JS.Get data "length" = Normal (VNum (JS.of_nat (length items))))
  /\ (forall fields, data = VObj fields -> fields !! "length" = None ->
        message (step B s (Deliver id fr))
        = Some ("undefined item(s) marked as overdue.", "success"))
  /\ (data = VNull ->
      message (step B s (Deliver id fr))
      = Some (TypeError_message B (ReadOfNull "length"), "error")
      /\ sends s (step B s (Deliver id fr)) []).
Proof.
  intros Hp Ha. rewrite (deliver_pending B s id q _ fr Hp). clear Hp.
  cbn [awaited resume] in *. rewrite Ha. unfold sends.
  split; [|split; [|split]].
  - intros len Hg. destruct_state s. exec. rewrite Hg. exec.
    rewrite <- ?app_assoc. split; reflexivity.
  - intros items ->. reflexivity.
  - intros fields -> Hl. destruct_state s. exec. cbn [JS.Get]. rewrite Hl. reflexivity.
  - intros ->. destruct_state s. exec. rewrite app_nil_r. split; reflexivity.
Qed.

Lemma checkOverdue_counts_by_length_witness :
  message (Sample.run_events Sample.utc Sample.fresh
             [ClickCheckOverdue; Deliver 0 (Sample.reply 200 (VArr [VNum 4; VNum 9]))])
  = Some ("2 item(s) marked as overdue.", "success").
Proof.
  destruct (checkOverdue_counts_by_length Sample.utc
              (step Sample.utc Sample.fresh ClickCheckOverdue) 0
              (apiFetch_request Sample.utc VNull "/requests/check-overdue/" POST)
              (Sample.reply 200 (VArr [VNum 4; VNum 9])) (VArr [VNum 4; VNum 9])
              eq_refl eq_refl) as [H _].
  exact (proj1 (H (VNum 2) eq_refl)).
Defined.

End ActionFacts.
(** ** The list views *)

Module ListFacts.
Import Fetch App Terms Notions AppFacts.

(** What a list view leaves behind when its list arrives. *)
Lemma list_answer_state (B : Browser) (s : State) (id : nat) (q : request) (k : cont)
    (fr : fetch_result) (tbody : string) (tbl : value -> string * completion unit)
    (list : value) :
  pending s !! id = Some (q, k) ->
  list_view B k = Some (tbody, tbl) ->
  awaited B k fr = Normal list ->
  innerHTML (step B s (Deliver id fr)) = <[tbody := fst (tbl list)]> (innerHTML s)
  /\ pending (step B s (Deliver id fr)) = delete id (pending s)
  /\ message (step B s (Deliver id fr))
     = match snd (tbl list) with
       | Normal _ => message s
       | Throw e => Some (error_message B e, "error")
       end
  /\ sends s (step B s (Deliver id fr)) [].
Proof.
  intros Hp Hv Ha. rewrite (deliver_pending B s id q k fr Hp). unfold sends.
  destruct k; try discriminate; cbn [awaited resume list_view] in *;
    injection Hv as <- <-; rewrite Ha; destruct_state s;
    exec; rewrite ?render_list_or_placeholder_eq, ?render_list_eq; exec;
    match goal with
    | |- context [snd ?t] => destruct (snd t) as [[]|e]
    end; exec; rewrite app_nil_r; repeat split.
Qed.

Lemma list_view_rows (B : Browser) (k : cont) tbody tbl :
  list_view B k = Some (tbody, tbl) ->
  exists row,
    view_row B k = Some (tbody, row)
    /\ (tbl = table_or_placeholder B (placeholder_of k) row
        \/ (k = KLoadAdminInventory /\ tbl = table B row)).
Proof.
  destruct k; try discriminate; cbn [list_view view_row placeholder_of];
    intros [= <- <-]; eexists; (split; [reflexivity|]); auto.
Qed.

(** X18.  An empty list shows the placeholder row of its view, and in the
    inventory, which has no placeholder, an empty table; no message is
    shown. *)
Theorem empty_list_shows_placeholder (B : Browser) (s : State) (id : nat)
    (q : request) (k : cont) (fr : fetch_result) (tbody : string)
    (tbl : value -> string * completion unit) :
  pending s !! id = Some (q, k) ->
  list_view B k = Some (tbody, tbl) ->
  awaited B k fr = Normal (VArr []) ->
  innerHTML (step B s (Deliver id fr))
  = <[tbody := html_roundtrip B (placeholder_of k)]> (innerHTML s)
  /\ message (step B s (Deliver id fr)) = message s.
Proof.
  intros Hp Hv Ha.
  destruct (list_answer_state B s id q k fr tbody tbl (VArr []) Hp Hv Ha) as (H1 & _ & H3 & _).
  rewrite H1, H3.
  destruct (list_view_rows B k tbody tbl Hv) as (row & _ & [-> | [-> ->]]); split; reflexivity.
Qed.

Lemma empty_list_shows_placeholder_witness :
  innerHTML (step Sample.utc Sample.student_home (Deliver 3 (Sample.reply 200 (VArr []))))
    !! "my-requests-tbody"
  = Some ("<tr><td colspan=" +:+ JS.dq +:+ "5" +:+ JS.dq +:+ ">You have no requests.</td></tr>").
Proof.
  destruct (empty_list_shows_placeholder Sample.utc Sample.student_home 3
              (apiFetch_request Sample.utc (VStr "t1") "/requests/my/" GET)
              KLoadStudentRequests (Sample.reply 200 (VArr []))
              _ _ eq_refl eq_refl eq_refl) as [-> _].
  apply lookup_insert_eq.
Defined.

(** X19.  A list view empties its table before it looks at the list.  So
    when the answer has no body (a 204), the table is left empty and the
    engine's error about the first property read on [null] is shown. *)
Theorem bodiless_list_answer_blanks_table (B : Browser) (s : State) (id : nat)
    (q : request) (k : cont) (fr : fetch_result) (tbody : string)
    (tbl : value -> string * completion unit) :
  pending s !! id = Some (q, k) ->
  list_view B k = Some (tbody, tbl) ->
  awaited B k fr = Normal VNull ->
  innerHTML (step B s (Deliver id fr))
  = <[tbody := html_roundtrip B EmptyString]> (innerHTML s)
  /\ message (step B s (Deliver id fr))
     = Some (TypeError_message B (ReadOfNull (first_read k)), "error").
Proof.
  intros Hp Hv Ha.
  destruct (list_answer_state B s id q k fr tbody tbl VNull Hp Hv Ha) as (H1 & _ & H3 & _).
  rewrite H1, H3.
  destruct k; try discriminate; cbn [list_view] in Hv; injection Hv as <- <-;
    split; reflexivity.
Qed.

Lemma bodiless_list_answer_blanks_table_witness :
  innerHTML (step Sample.utc Sample.student_home (Deliver 2 (Sample.reply 204 VNull)))
    !! "equipment-list-tbody" = Some EmptyString
  /\ message (step Sample.utc Sample.student_home (Deliver 2 (Sample.reply 204 VNull)))
     = Some ("Cannot read properties of null (reading 'length')", "error").
Proof.
  destruct (bodiless_list_answer_blanks_table Sample.utc Sample.student_home 2
              (apiFetch_request Sample.utc (VStr "t1") "/equipment/" GET)
              KLoadStudentEquipment (Sample.reply 204 VNull)
              _ _ eq_refl eq_refl eq_refl) as [-> ->].
  split; [apply lookup_insert_eq | reflexivity].
Defined.



(** Rows are appended up to the first item of which no row can be made. *)
Lemma rows_onto_stop (B : Browser) row good bad rest e :
  forall acc,
    (forall item, item ∈ good -> exists markup, row item = Normal markup) ->
    row bad = Throw e ->
    rows_onto B row (good ++ bad :: rest) acc = (fst (rows_onto B row good acc), Throw e).
Proof.
  induction good as [|item good IH]; intros acc Hgood Hbad.
  - cbn [app rows_onto fst]. rewrite Hbad. reflexivity.
  - cbn [app rows_onto].
    destruct (Hgood item) as [markup Hm]; [apply elem_of_cons; auto|].
    rewrite Hm. apply IH; [|exact Hbad].
    intros item' Hin. apply Hgood. apply elem_of_cons. auto.
Qed.

(** X21.  When an item of a non-empty list is one of which no row can be
    made, the rendering stops there: the table keeps the rows of the items
    before it, the items after it are dropped, and the error is shown. *)
Theorem rendering_stops_at_bad_item (B : Browser) (s : State) (id : nat)
    (q : request) (k : cont) (fr : fetch_result) (tbody : string)
    (row : value -> completion string) (good rest : list value) (bad : value)
    (e : error) :
  pending s !! id = Some (q, k) ->
  view_row B k = Some (tbody, row) ->
  awaited B k fr = Normal (VArr (good ++ bad :: rest)) ->
  JS.strict_eq_num (VNum (JS.of_nat (length (good ++ bad :: rest)))) 0 = false ->
  (forall item, item ∈ good -> exists markup, row item = Normal markup) ->
  row bad = Throw e ->
  innerHTML (step B s (Deliver id fr))
  = <[tbody := fst (table B row (VArr good))]> (innerHTML s)
  /\ message (step B s (Deliver id fr)) = Some (error_message B e, "error").
Proof.
  intros Hp Hv Ha Hlen Hgood Hbad.
  assert (Hview : exists tbl, list_view B k = Some (tbody, tbl)
            /\ tbl (VArr (good ++ bad :: rest))
               = (fst (table B row (VArr good)), Throw e)).
  { destruct k; try discriminate; cbn [view_row list_view] in *; injection Hv as <- <-;
      eexists; (split; [reflexivity|]);
      unfold table_or_placeholder, table; cbn [JS.Get JS.forEach_items];
      closed_tests; rewrite ?Hlen; apply rows_onto_stop; assumption. }
  destruct Hview as (tbl & Hl & Ht).
  destruct (list_answer_state B s id q k fr tbody tbl _ Hp Hl Ha) as (H1 & _ & H3 & _).
  rewrite H1, H3, Ht. split; reflexivity.
Qed.

Lemma rendering_stops_at_bad_item_witness :
  innerHTML (step Sample.utc Sample.student_home
               (Deliver 2 (Sample.reply 200 (VArr [VObj Sample.microscope; VNull;
                                                    VObj Sample.microscope]))))
    !! "equipment-list-tbody"
  = Some (equipment_row_markup "Microscope" "Lab" "0" "available" "7" "disabled")
  /\ message (step Sample.utc Sample.student_home
               (Deliver 2 (Sample.reply 200 (VArr [VObj Sample.microscope; VNull;
                                                    VObj Sample.microscope]))))
     = Some ("Cannot read properties of null (reading 'name')", "error").
Proof.
  destruct (rendering_stops_at_bad_item Sample.utc Sample.student_home 2
              (apiFetch_request Sample.utc (VStr "t1") "/equipment/" GET)
              KLoadStudentEquipment
              (Sample.reply 200 (VArr [VObj Sample.microscope; VNull; VObj Sample.microscope]))
              "equipment-list-tbody" (equipment_row Sample.utc)
              [VObj Sample.microscope] [VObj Sample.microscope] VNull
              (TypeError (ReadOfNull "name"))
              eq_refl eq_refl eq_refl eq_refl) as [H1 H2].
  - intros item Hin. apply list_elem_of_singleton in Hin. subst item.
    eexists. reflexivity.
  - reflexivity.
  - rewrite H1, H2. split; [apply lookup_insert_eq | reflexivity].
Defined.

(** X22.  Answers are not matched to the order of their requests: when
    two fetches of the same list are in flight, the table shows the list
    of whichever answer arrives last. *)
Theorem last_list_answer_wins (B : Browser) (s : State) (id1 id2 : nat)
    (q1 q2 : request) (k : cont) (fr1 fr2 : fetch_result) (tbody : string)
    (tbl : value -> string * completion unit) (list1 list2 : value) :
  id1 <> id2 ->
  pending s !! id1 = Some (q1, k) ->
  pending s !! id2 = Some (q2, k) ->
  list_view B k = Some (tbody, tbl) ->
  awaited B k fr1 = Normal list1 ->
  awaited B k fr2 = Normal list2 ->
  innerHTML (step B (step B s (Deliver id1 fr1)) (Deliver id2 fr2)) !! tbody
  = Some (fst (tbl list2))
  /\ innerHTML (step B (step B s (Deliver id2 fr2)) (Deliver id1 fr1)) !! tbody
     = Some (fst (tbl list1)).
Proof.
  intros Hne Hp1 Hp2 Hv Ha1 Ha2.
  destruct (list_answer_state B s id1 q1 k fr1 tbody tbl list1 Hp1 Hv Ha1) as (_ & P1 & _).
  destruct (list_answer_state B s id2 q2 k fr2 tbody tbl list2 Hp2 Hv Ha2) as (_ & P2 & _).
  split.
  - destruct (list_answer_state B (step B s (Deliver id1 fr1)) id2 q2 k fr2 tbody tbl list2)
      as (-> & _); [|assumption..|apply lookup_insert_eq].
    rewrite P1, lookup_delete_ne by congruence. exact Hp2.
  - destruct (list_answer_state B (step B s (Deliver id2 fr2)) id1 q1 k fr1 tbody tbl list1)
      as (-> & _); [|assumption..|apply lookup_insert_eq].
    rewrite P2, lookup_delete_ne by congruence. exact Hp1.
Qed.

(** Two clicks on the equipment tab; the answer to the first click arrives
    after the answer to the second, and is what the table shows. *)
Lemma last_list_answer_wins_witness :
  innerHTML (Sample.run_events Sample.utc Sample.fresh
               [ClickTab "equipment"; ClickTab "equipment";
                Deliver 1 (Sample.reply 200 (VArr [VObj Sample.microscope]));
                Deliver 0 (Sample.reply 200 (VArr []))])
    !! "admin-inventory-tbody"
  = Some EmptyString.
Proof.
  refine (proj1 (last_list_answer_wins Sample.utc
            (Sample.run_events Sample.utc Sample.fresh
               [ClickTab "equipment"; ClickTab "equipment"]) 1 0
            (apiFetch_request Sample.utc VNull "/equipment/" GET)
            (apiFetch_request Sample.utc VNull "/equipment/" GET)
            KLoadAdminInventory
            (Sample.reply 200 (VArr [VObj Sample.microscope]))
            (Sample.reply 200 (VArr []))
            "admin-inventory-tbody" (table Sample.utc (inventory_row Sample.utc))
            (VArr [VObj Sample.microscope]) (VArr [])
            _ eq_refl eq_refl eq_refl eq_refl eq_refl)).
  discriminate.
Defined.

End ListFacts.
(** ** The dates of a new request, in any time zone *)

Module ReturnDateFacts.
Import JSDate Calendar DateFacts RequestFacts Fetch.

(** [setDate(getDate() + 5)] moves the time value by five days and by the
    difference between the offset now and the offset at the shifted local
    time. *)
Lemma setDate_plus_5_shift (B : Browser) now :
  setDate B (Some now) ((fun d => d + 5) <$> getDate B (Some now))
  = TimeClip (now + 5 * msPerDay
              + (LocalTZA B now true - LocalTZA B (LocalTime B now + 5 * msPerDay) false)).
Proof.
  cbn. rewrite MakeDay_same_month.
  replace (DateFromTime (LocalTime B now) + 5 - DateFromTime (LocalTime B now)) with 5 by lia.
  rewrite MakeDate_Day. unfold UTC, LocalTime. f_equal. lia.
Qed.

(** The civil date depends on the day number alone. *)
Lemma civil_of_time_same_day t1 t2 : Day t1 = Day t2 -> civil_of_time t1 = civil_of_time t2.
Proof.
  intros H. unfold civil_of_time, DateFromTime, MonthFromTime, InLeapYear, DayWithinYear,
    YearFromTime. rewrite H. reflexivity.
Qed.

Lemma civil_of_time_days_later t t' (n : nat) :
  Day t' = Day t + Z.of_nat n -> civil_of_time t' = plus_days n (civil_of_time t).
Proof.
  intros H. rewrite <- civil_of_time_plus_days. apply civil_of_time_same_day.
  rewrite H. unfold Day, msPerDay. zdiv.
Qed.

Lemma requestItem_dates_shift (B : Browser) now t' :
  setDate B (Some now) ((fun d => d + 5) <$> getDate B (Some now)) = Some t' ->
  App.requestItem_dates B now
  = Normal (VStr (iso_civil (civil_of_time now)), VStr (iso_civil (civil_of_time t'))).
Proof.
  intros Hset. unfold App.requestItem_dates. rewrite Hset.
  unfold toISOString, mbind, completion_bind, mret, completion_ret.
  change (String.append "T") with (String "T").
  rewrite !iso_date_part. reflexivity.
Qed.

(** X23.  Whatever the time zone, as long as the local offset changes by
    no more than a day over the five days, the request carries the current
    UTC date as [borrow_date] and a date four, five or six calendar days
    later as [expected_return_date]: never less than five when the offset
    decreases, never more than five when it grows. *)
Theorem return_date_four_to_six_days_later (B : Browser) (now : Z) :
  let shift :=
    LocalTZA B now true - LocalTZA B (LocalTime B now + 5 * msPerDay) false in
  Z.abs shift <= msPerDay ->
  Z.abs (now + 5 * msPerDay + shift) <= 8640000000000000 ->
  exists n : nat,
    (4 <= n <= 6)%nat
    /\ (0 <= shift -> (5 <= n)%nat)
    /\ (shift <= 0 -> (n <= 5)%nat)
    /\ App.requestItem_dates B now
       = Normal (VStr (iso_civil (civil_of_time now)),
                 VStr (iso_civil (plus_days n (civil_of_time now)))).
Proof.
  intros shift Hshift Hrange.
  set (t' := now + 5 * msPerDay + shift) in *.
  assert (Hset : setDate B (Some now) ((fun d => d + 5) <$> getDate B (Some now)) = Some t').
  { rewrite setDate_plus_5_shift. fold shift. fold t'. unfold TimeClip.
    destruct (Z.gtb_spec (Z.abs t') 8640000000000000); [lia|reflexivity]. }
  rewrite (requestItem_dates_shift B now t' Hset).
  assert (Hday : (Day t' = Day now + 4 /\ shift < 0)
                 \/ Day t' = Day now + 5
                 \/ (Day t' = Day now + 6 /\ 0 < shift)).
  { unfold t', Day, msPerDay in *. zdiv. }
  destruct Hday as [[H Hs] | [H | [H Hs]]].
  - exists 4%nat. rewrite (civil_of_time_days_later now t' 4 H).
    repeat split; lia.
  - exists 5%nat. rewrite (civil_of_time_days_later now t' 5 H).
    repeat split; lia.
  - exists 6%nat. rewrite (civil_of_time_days_later now t' 6 H).
    repeat split; lia.
Qed.

(** New York on the evening before daylight saving time starts. *)
Lemma return_date_four_to_six_days_later_witness :
  exists n : nat,
    (4 <= n <= 6)%nat
    /\ (0 <= Sample.hours (-1) -> (5 <= n)%nat)
    /\ (Sample.hours (-1) <= 0 -> (n <= 5)%nat)
    /\ App.requestItem_dates Sample.new_york 1772929800000
       = Normal (VStr (iso_civil (civil_of_time 1772929800000)),
                 VStr (iso_civil (plus_days n (civil_of_time 1772929800000)))).
Proof.
  apply (return_date_four_to_six_days_later Sample.new_york 1772929800000);
    vm_compute; discriminate.
Defined.

(** X24.  The dates are computed before the [try] block.  When the shifted
    date falls outside the range of time values, [toISOString] raises a
    RangeError that no handler catches: nothing is sent and no message is
    shown. *)
Theorem requestItem_out_of_range_is_silent (B : Browser) (s : App.State)
    (equipmentId : value) (now : Z) :
  Z.abs (now + 5 * msPerDay
         + (LocalTZA B now true - LocalTZA B (LocalTime B now + 5 * msPerDay) false))
  > 8640000000000000 ->
  App.requestItem_dates B now = Throw RangeError
  /\ App.step B s (App.CallRequestItem equipmentId now) = s.
Proof.
  intros Hrange.
  assert (Hd : App.requestItem_dates B now = Throw RangeError).
  { unfold App.requestItem_dates. rewrite setDate_plus_5_shift. unfold TimeClip.
    match goal with
    | |- context [Z.abs ?x >? ?y] => destruct (Z.gtb_spec (Z.abs x) y); [|lia]
    end.
    reflexivity. }
  split; [exact Hd|].
  unfold App.step, App.run, App.handle, App.requestItem.
  unfold mbind, App.M_bind, App.lift. rewrite Hd. reflexivity.
Qed.

Lemma requestItem_out_of_range_is_silent_witness :
  App.step Sample.utc Sample.fresh (App.CallRequestItem (VNum 7) 8640000000000000)
  = Sample.fresh.
Proof.
  refine (proj2 (requestItem_out_of_range_is_silent Sample.utc Sample.fresh (VNum 7)
                   8640000000000000 _)).
  vm_compute. reflexivity.
Defined.

End ReturnDateFacts.

(** ** The transport wrapper: the ways in which it fails *)

Module TransportFacts.
Import Fetch.

(** X25.  Besides the error made from [detail], [apiFetch] fails in four
    ways.  When no response arrives, with the error of [fetch], without
    reading a body.  When the status is not 2xx and the body is not JSON,
    with the parser's error, whatever the status.  When the status is not
    2xx and the body is [null], with the engine's error about [detail].
    And when the status is 2xx other than 204 and the body is not JSON,
    with the parser's error, although the call succeeded. *)
Theorem apiFetch_failure_modes (B : Browser) (token : value)
    (net : request -> fetch_result) (endpoint : string) (o : options) :
  (forall m, net (apiFetch_request B token endpoint o) = Failed m ->
     apiFetch B token net endpoint o = Throw (NetworkFailure m)
     /\ snd (apiFetch_settle B (Failed m)) = false)
  /\ (forall response m,
        net (apiFetch_request B token endpoint o) = Responded response ->
        status response <> 204 ->
        json response = inl m ->
        apiFetch B token net endpoint o = Throw (SyntaxError m))
  /\ (forall response,
        net (apiFetch_request B token endpoint o) = Responded response ->
        ok response = false ->
        json response = inr VNull ->
        apiFetch B token net endpoint o = Throw (TypeError (ReadOfNull "detail"))).
Proof.
  unfold apiFetch. split; [|split].
  - intros m ->. split; reflexivity.
  - intros response m -> H204 Hj. unfold apiFetch_settle, response_json. rewrite Hj.
    destruct (ok response); cbn [negb fst]; [|reflexivity].
    destruct (Z.eqb_spec (status response) 204); [contradiction|reflexivity].
  - intros response -> Hok Hj. unfold apiFetch_settle, response_json. rewrite Hok, Hj.
    reflexivity.
Qed.

End TransportFacts.
(** ** Messages *)

Module MessageFacts.
Import Fetch App Terms Notions AppFacts StepFacts.

(** A failed answer, as the function suspended at [k] receives it. *)
Lemma awaited_failure (B : Browser) (k : cont) (response : response)
    (errorData detail : value) :
  ok response = false ->
  json response = inr errorData ->
  JS.Get errorData "detail" = Normal detail ->
  awaited B k (Responded response)
  = Throw (Error (JS.ToString B (JS.or_else detail (VStr (fallback_of k))))).
Proof.
  intros Hok Hj Hg.
  destruct k; cbn [awaited fallback_of apiFetch_settle fst fetch_json];
    unfold check_ok, response_json, mbind, completion_bind, mret, completion_ret;
    rewrite ?Hok, ?Hj; cbn [negb]; rewrite ?Hok, ?Hg; cbn [negb]; rewrite ?Hg; reflexivity.
Qed.

Lemma failure_message (B : Browser) (s : State) (id : nat) (q : request) (k : cont)
    (fr : fetch_result) (e : error) :
  pending s !! id = Some (q, k) ->
  awaited B k fr = Throw e ->
  (forall j which, k = KLoadAdminReports j which -> joins s !! j <> None) ->
  message (step B s (Deliver id fr)) = Some (error_message B e, "error").
Proof.
  intros Hp Ha Hj. rewrite (deliver_pending B s id q k fr Hp).
  destruct k; cbn [awaited resume] in *.
  3-14, 16-17: rewrite Ha; destruct_state s; reflexivity.
  3:{ rewrite Ha. specialize (Hj _ _ eq_refl). destruct_state s. exec.
      destruct (jns !! join); [reflexivity|contradiction]. }
  all: unfold register_then, login_then;
    unfold mbind, completion_bind in Ha;
    destruct (fetch_json fr) as [[response data]|e'];
    [destruct (check_ok B response data _) as [[]|e''] eqn:Hc; [discriminate|]|];
    injection Ha as ->; destruct_state s; exec; rewrite ?Hc; reflexivity.
Qed.

(** X26.  When a request is answered with a status that is not 2xx and a
    JSON body, the function that awaits it shows the [detail] of the body
    in the message area, word for word when it is a non-empty string, and
    its own fallback text when the body has no [detail]: one text for
    registration, one for login, and one for every call through
    [apiFetch].  (A report list says so only while its [Promise.all] is
    unsettled.) *)
Theorem server_detail_is_shown (B : Browser) (s : State) (id : nat) (q : request)
    (k : cont) (response : response) (errorData : value) :
  pending s !! id = Some (q, k) ->
  ok response = false ->
  json response = inr errorData ->
  (forall j which, k = KLoadAdminReports j which -> joins s !! j <> None) ->
  (forall detail, JS.Get errorData "detail" = Normal (VStr detail) ->
     detail <> EmptyString ->
     message (step B s (Deliver id (Responded response))) = Some (detail, "error"))
  /\ (JS.Get errorData "detail" = Normal VUndefined ->
      message (step B s (Deliver id (Responded response)))
      = Some (fallback_of k, "error")).
Proof.
  intros Hp Hok Hj Hjoin. split.
  - intros detail Hg Hne.
    rewrite (failure_message B s id q k _ _ Hp (awaited_failure B k _ _ _ Hok Hj Hg) Hjoin).
    unfold JS.or_else. cbn [JS.ToBoolean error_message].
    destruct (String.eqb_spec detail EmptyString); [contradiction|reflexivity].
  - intros Hg.
    rewrite (failure_message B s id q k _ _ Hp (awaited_failure B k _ _ _ Hok Hj Hg) Hjoin).
    reflexivity.
Qed.

Lemma server_detail_is_shown_witness :
  message (Sample.run_events Sample.utc Sample.fresh
             [SubmitLogin "ann" "wrong";
              Deliver 0 (Sample.reply 401
                           (JS.obj [("detail", VStr "Incorrect username or password")]))])
  = Some ("Incorrect username or password", "error").
Proof.
  refine (proj1 (server_detail_is_shown Sample.utc
                   (step Sample.utc Sample.fresh (SubmitLogin "ann" "wrong")) 0
                   (token_request "ann" "wrong") KLogin
                   {| status := 401;
                      json := inr (JS.obj [("detail", VStr "Incorrect username or password")]) |}
                   (JS.obj [("detail", VStr "Incorrect username or password")])
                   eq_refl eq_refl eq_refl _)
            "Incorrect username or password" eq_refl _).
  - intros j which H. discriminate H.
  - discriminate.
Defined.

Lemma loadAdminReports_then_message (B : Browser) j which r s :
  exists m msg' jns',
    run (loadAdminReports_then B j which r) s
    = set_message msg' (set_joins jns' (set_innerHTML m s))
    /\ (msg' = message s \/ exists e, msg' = Some (error_message B e, "error")).
Proof.
  destruct_state s. unfold run, loadAdminReports_then.
  unfold mbind at 1. unfold M_bind at 1. unfold get at 1. cbn [joins].
  destruct (jns !! j) as [slots|];
    [|eexists _, _, _; split; [exec; reflexivity|left; reflexivity]].
  destruct r as [v|err];
    [|eexists _, _, _; split; [exec; reflexivity|right; eexists; reflexivity]].
  destruct (fill which v slots) as [[[a|] [b|]] [c|]].
  2-8: eexists _, _, _; split; [exec; reflexivity|left; reflexivity].
  unfold mbind at 1. unfold M_bind at 1. unfold modify at 1. unfold try_catch.
  match goal with
  | |- context [render_reports B ?o ?r ?a ?st] =>
      destruct (render_reports_frame B o r a st) as (m & res & ->)
  end.
  destruct res as [[]|err]; eexists _, _, _;
    (split; [exec; reflexivity|]); [left; reflexivity|right; eexists; reflexivity].
Qed.

Ltac class_leaf :=
  unfold message_classes;
  first [ left; reflexivity
        | right; left; reflexivity
        | right; right; eexists _, _; split; [reflexivity|];
          rewrite !elem_of_cons; auto ].

(** X27.  The message area is either left alone, or emptied by a page
    load, or given a text with one of the two classes ["success"] and
    ["error"]: the script uses no other class. *)
Theorem message_has_two_classes (B : Browser) (s : State) (e : event) :
  message (step B s e) = message s
  \/ message (step B s e) = None
  \/ exists text class,
       message (step B s e) = Some (text, class) /\ class ∈ message_classes.
Proof.
  step_cases_with B s e class_leaf
    ltac:(match goal with
          | |- context [run (loadAdminReports_then B ?j ?w ?r) ?st] =>
              destruct (loadAdminReports_then_message B j w r st)
                as (m & msg' & jns' & -> & [-> | [err ->]])
          end;
          destruct_state s; class_leaf).
Qed.

End MessageFacts.
(** ** The buttons of a row *)

Module RowFacts.
Import Fetch App Terms Notions AppFacts.





End RowFacts.
